(** * modFileChecker: the validation and extraction pipeline of the mod parser

    A shallow embedding of the class [modFileChecker] (src/orig.js) and the
    properties of its report.  The class is stateful: every step reads and
    writes the private fields of one instance.  The embedding threads a
    record [State] holding those fields through functions named after the
    methods; a [throw] inside [getInfo] is an early exit from the function
    that models the [try] block.

    Strings: a JavaScript string is a sequence of UTF-16 code units; here a
    character of [string] stands for one code unit, so the embedding covers
    the strings whose code units are below 256. *)

From Stdlib Require Import ZArith List String Ascii Bool Lia DecimalString.
Import ListNotations.

Local Open Scope string_scope.
Local Open Scope list_scope.
Local Open Scope Z_scope.

Set Implicit Arguments.
Set Warnings "-register-all".

(** ** String methods of the host language *)

Module Str.

Definition len (s : string) : nat := String.length s.

(** [s.endsWith(p)] *)
Definition endsWith (s p : string) : bool :=
  (len p <=? len s)%nat && String.eqb (substring (len s - len p) (len p) s) p.

(** [s.includes(p)] *)
Fixpoint includes (s p : string) : bool :=
  String.prefix p s ||
  match s with
  | EmptyString => false
  | String _ s' => includes s' p
  end.

(** [s.slice(0, -n)]: the end index is [max (length - n) 0]. *)
Definition slice0_neg (s : string) (n : nat) : string :=
  substring 0 (len s - n) s.

(** [s.substring(1)] *)
Definition substring1 (s : string) : string :=
  match s with
  | EmptyString => EmptyString
  | String _ s' => s'
  end.

Definition between (lo hi : nat) (c : ascii) : bool :=
  let n := nat_of_ascii c in (lo <=? n)%nat && (n <=? hi)%nat.

Definition isUpper (c : ascii) : bool := between 65 90 c.
Definition isLower (c : ascii) : bool := between 97 122 c.
(** regular-expression class [\d] *)
Definition isDigit (c : ascii) : bool := between 48 57 c.
(** regular-expression class [[A-Za-z]] *)
Definition isAlpha (c : ascii) : bool := isUpper c || isLower c.
(** regular-expression class [\w] *)
Definition isWord (c : ascii) : bool :=
  isAlpha c || isDigit c || Ascii.eqb c "_"%char.
(** what [.] refuses below code unit 256: line feed and carriage return *)
Definition isLineTerminator (c : ascii) : bool :=
  Ascii.eqb c "010"%char || Ascii.eqb c "013"%char.

Definition upperChar (c : ascii) : ascii :=
  if isLower c then ascii_of_nat (nat_of_ascii c - 32) else c.
Definition lowerChar (c : ascii) : ascii :=
  if isUpper c then ascii_of_nat (nat_of_ascii c + 32) else c.

Fixpoint mapChars (f : ascii -> ascii) (s : string) : string :=
  match s with
  | EmptyString => EmptyString
  | String c s' => String (f c) (mapChars f s')
  end.

(** [s.toUpperCase()] and [s.toLowerCase()] on the letters A-Z, a-z; the
    code applies them to the tags gdm, xml, shapes and to the literals
    title and description only. *)
Definition toUpperCase : string -> string := mapChars upperChar.
Definition toLowerCase : string -> string := mapChars lowerChar.

Fixpoint allChars (p : ascii -> bool) (s : string) : bool :=
  match s with
  | EmptyString => true
  | String c s' => p c && allChars p s'
  end.

(** the longest prefix of [s] made of characters satisfying [p], and
    what follows it *)
Fixpoint span (p : ascii -> bool) (s : string) : string * string :=
  match s with
  | EmptyString => (EmptyString, EmptyString)
  | String c s' =>
      if p c then let (a, b) := span p s' in (String c a, b)
      else (EmptyString, s)
  end.

(** position of the last occurrence of [c] in [s] *)
Fixpoint lastIndexOf (c : ascii) (s : string) : option nat :=
  match s with
  | EmptyString => None
  | String d s' =>
      match lastIndexOf c s' with
      | Some i => Some (S i)
      | None => if Ascii.eqb c d then Some O else None
      end
  end.

End Str.

(** ** The [path] module (POSIX flavour) *)

Module Path.

(** drop the trailing separators of a path *)
Fixpoint stripTrailingSlashes (s : string) : string :=
  match s with
  | EmptyString => EmptyString
  | String c s' =>
      match stripTrailingSlashes s' with
      | EmptyString => if Ascii.eqb c "/"%char then EmptyString else String c EmptyString
      | r => String c r
      end
  end.

(** last segment of a path, trailing separators ignored *)
Definition basename (p : string) : string :=
  let q := stripTrailingSlashes p in
  match Str.lastIndexOf "/"%char q with
  | Some i => substring (S i) (Str.len q - S i) q
  | None => q
  end.

(** where the extension of a base name starts, if it has one: at its
    last dot, unless that dot opens the name or the name is [..] *)
Definition extStart (b : string) : option nat :=
  match Str.lastIndexOf "."%char b with
  | None => None
  | Some O => None
  | Some i => if String.eqb b ".." then None else Some i
  end.

(** [path.extname(p)] *)
Definition extname (p : string) : string :=
  let b := basename p in
  match extStart b with
  | Some i => substring i (Str.len b - i) b
  | None => EmptyString
  end.

(** [path.parse(p).name] *)
Definition parse_name (p : string) : string :=
  let b := basename p in
  match extStart b with
  | Some i => substring 0 i b
  | None => b
  end.

End Path.

(** ** Plain objects: keys in insertion order *)

Module Obj.
Section WithValue.
Variable A : Type.

Definition t := list (string * A).

(** [o[k]]; [None] is [undefined] *)
Fixpoint get (k : string) (o : t) : option A :=
  match o with
  | [] => None
  | (k', v) :: o' => if String.eqb k' k then Some v else get k o'
  end.

(** [o[k] = v]: overwrite in place, or append a new key *)
Fixpoint set (k : string) (v : A) (o : t) : t :=
  match o with
  | [] => [(k, v)]
  | (k', v') :: o' =>
      if String.eqb k' k then (k', v) :: o' else (k', v') :: set k v o'
  end.

Definition keys (o : t) : list string := map fst o.

(** [Object.hasOwn(o, k)] *)
Definition hasOwn (k : string) (o : t) : bool :=
  match get k o with Some _ => true | None => false end.

(** [{...a, ...b}] *)
Definition spread (a b : t) : t :=
  fold_left (fun acc kv => set (fst kv) (snd kv) acc) b a.

End WithValue.
End Obj.

(** A flag map: [Object.entries(m).some(x => x[1] === true)] and the names
    of the entries that are [true]. *)
Definition Flags := Obj.t bool.

Definition anyTrue (m : Flags) : bool := existsb snd m.
Definition trueNames (m : Flags) : list string := map fst (filter snd m).
(** reading [m[k]] where the code tests it: [undefined] is not [true] *)
Definition flagOf (k : string) (m : Flags) : bool :=
  match Obj.get k m with Some b => b | None => false end.

(** ** Values of the parsed descriptor tree *)

(** What the XML reader hands back is plain data: text, numbers, booleans,
    lists and objects.  The own keys of its objects are lower-case element
    names and [$] (the attributes), so members inherited from the object
    prototype are never shadowed; numbers are integral. *)
Inductive jsval : Type :=
| JUndefined
| JNull
| JBool (b : bool)
| JNum (n : Z)
| JStr (s : string)
| JArr (items : list jsval)
| JObj (props : list (string * jsval)).

Module JS.

(** [v === null || v === undefined] *)
Definition nullish (v : jsval) : bool :=
  match v with JUndefined | JNull => true | _ => false end.

(** [a ?? b] *)
Definition coalesce (a b : jsval) : jsval := if nullish a then b else a.

(** [v?.[k]] for a string key [k] that is neither an array index nor the
    name of a member that text and lists inherit (the keys the code uses
    are element names, [$], attribute names, [length] and locale tags) *)
Definition get (v : jsval) (k : string) : jsval :=
  match v with
  | JObj props =>
      match Obj.get k props with Some x => x | None => JUndefined end
  | JArr items =>
      if String.eqb k "length" then JNum (Z.of_nat (List.length items)) else JUndefined
  | JStr s =>
      if String.eqb k "length" then JNum (Z.of_nat (Str.len s)) else JUndefined
  | _ => JUndefined
  end.

(** [v?.[0]] *)
Definition first (v : jsval) : jsval :=
  match v with
  | JArr (x :: _) => x
  | JStr (String c _) => JStr (String c EmptyString)
  | JObj props =>
      match Obj.get "0" props with Some x => x | None => JUndefined end
  | _ => JUndefined
  end.

(** [v === s] for a string literal [s] *)
Definition isStr (v : jsval) (s : string) : bool :=
  match v with JStr t => String.eqb t s | _ => false end.

(** [v === n] for a number literal [n] *)
Definition isNum (v : jsval) (n : Z) : bool :=
  match v with JNum m => Z.eqb m n | _ => false end.

(** truthiness, as [!v] reads it *)
Definition truthy (v : jsval) : bool :=
  match v with
  | JUndefined | JNull => false
  | JBool b => b
  | JNum n => negb (Z.eqb n 0)
  | JStr s => negb (String.eqb s EmptyString)
  | JArr _ | JObj _ => true
  end.

(** [String(v)]; a number prints as its decimal digits, which is what
    the code does below 10^21 in magnitude *)
Fixpoint toString (v : jsval) : string :=
  match v with
  | JUndefined => "undefined"
  | JNull => "null"
  | JBool true => "true"
  | JBool false => "false"
  | JNum n => NilZero.string_of_int (Z.to_int n)
  | JStr s => s
  | JArr items =>
      (fix join (l : list jsval) : string :=
         match l with
         | [] => EmptyString
         | x :: r =>
             let e := if nullish x then EmptyString else toString x in
             match r with
             | [] => e
             | _ => (e ++ "," ++ join r)%string
             end
         end) items
  | JObj _ => "[object Object]"
  end.

(** [v?.toString?.()] *)
Definition optToString (v : jsval) : jsval :=
  if nullish v then JUndefined else JStr (toString v).

End JS.

(** ** The collaborators *)

(** [fileInfo(name)] *)
Record FileInfo : Type := mkFileInfo {
  fi_isFolder : bool;
  fi_size : Z;
}.

(** outcome of [iconDecoder.parseDDS]: it throws, or returns an image or
    [null] *)
Inductive decodeResult : Type :=
| DecodeThrows
| DecodeReturns (image : option string).

(** The file-access layer behind [#modHandle], for one artifact: what each
    of its methods answers.  [readXML] answers [JBool false] on a parse
    error, [JNull] when the file is not there, and an object otherwise. *)
Record fileHandlerAsync : Type := mkHandle {
  h_open : bool;
  h_exists : string -> bool;
  h_list : list string;
  h_fileInfo : string -> FileInfo;
  h_relativeFolder : string -> string;
  h_readText : string -> option string;
  h_readBin : string -> option string;
  h_readXML_modDesc : option (option (list (string * jsval)));
}.

(** [readXML('modDesc.xml', 'moddesc', 'moddesc')]: [false], [null] or the
    tree *)
Definition h_readXML (h : fileHandlerAsync) : jsval :=
  match h_readXML_modDesc h with
  | None => JBool false
  | Some None => JNull
  | Some (Some props) => JObj props
  end.

(** The module-level imports: the current locale, the icon decoder and the
    allow-list [malwareFalse] of mod names whose scripts are not scanned. *)
Record requiredItems : Type := mkRequired {
  currentLocale : string;
  parseDDS : option string -> decodeResult;
  malwareFalse : list string;
}.

(** ** The fields of an instance *)

Record FileDetail : Type := mkFileDetail {
  copyName    : option string;   (* false, or the recovered base name *)
  extraFiles  : list string;
  fileDate    : Z;
  fileSize    : Z;
  fullPath    : string;
  i3dFiles    : list string;
  imageDDS    : list string;
  imageNonDDS : list string;
  isFolder    : bool;
  isSaveGame  : bool;
  pngTexture  : list string;
  shortName   : string;
  spaceFiles  : list string;
  tooBigFiles : list string;
}.

(** [modDesc]; the fields written by the action/binding and map stages
    only (actions, binds, cropInfo, cropWeather, mapIsSouth) are left out:
    those stages run inside [try]/[catch] blocks that swallow every error
    and touch nothing else. *)
Record ModDesc : Type := mkModDesc {
  author         : jsval;
  depend         : jsval;
  descVersion    : jsval;
  iconFileName   : option string;   (* false, or the accepted name *)
  iconImageCache : option string;
  mapConfigFile  : jsval;
  multiPlayer    : jsval;
  scriptFiles    : Z;
  storeItems     : jsval;
  version        : jsval;
}.

(** the three private flag maps *)
Record Registry : Type := mkRegistry {
  flag_broken  : Flags;
  flag_info    : Flags;
  flag_problem : Flags;
}.

Inductive category : Type := Broken | Info | Problem.

Record State : Type := mkState {
  maxFilesType  : Obj.t Z;
  flags         : Registry;
  modDesc       : ModDesc;
  modDescParsed : jsval;
  md5Sum        : option string;
  fileDetail    : FileDetail;
  l10n          : option (jsval * jsval);   (* title, description *)
  (* history variable, not a field of the class: the registries the run
     has left behind, newest first, one for each write to a flag *)
  history       : list Registry;
}.

(** *** Field updates *)

Definition with_maxFilesType (q : Obj.t Z) (st : State) : State :=
  mkState q (flags st) (modDesc st) (modDescParsed st) (md5Sum st)
          (fileDetail st) (l10n st) (history st).

Definition with_modDesc (d : ModDesc) (st : State) : State :=
  mkState (maxFilesType st) (flags st) d (modDescParsed st) (md5Sum st)
          (fileDetail st) (l10n st) (history st).

Definition with_modDescParsed (v : jsval) (st : State) : State :=
  mkState (maxFilesType st) (flags st) (modDesc st) v (md5Sum st)
          (fileDetail st) (l10n st) (history st).

Definition with_md5Sum (m : option string) (st : State) : State :=
  mkState (maxFilesType st) (flags st) (modDesc st) (modDescParsed st) m
          (fileDetail st) (l10n st) (history st).

Definition with_fileDetail (f : FileDetail) (st : State) : State :=
  mkState (maxFilesType st) (flags st) (modDesc st) (modDescParsed st)
          (md5Sum st) f (l10n st) (history st).

Definition with_l10n (t : option (jsval * jsval)) (st : State) : State :=
  mkState (maxFilesType st) (flags st) (modDesc st) (modDescParsed st)
          (md5Sum st) (fileDetail st) t (history st).

Definition fd_copyName (v : option string) (f : FileDetail) : FileDetail :=
  mkFileDetail v (extraFiles f) (fileDate f) (fileSize f) (fullPath f)
    (i3dFiles f) (imageDDS f) (imageNonDDS f) (isFolder f) (isSaveGame f)
    (pngTexture f) (shortName f) (spaceFiles f) (tooBigFiles f).

Definition fd_extraFiles (v : list string) (f : FileDetail) : FileDetail :=
  mkFileDetail (copyName f) v (fileDate f) (fileSize f) (fullPath f)
    (i3dFiles f) (imageDDS f) (imageNonDDS f) (isFolder f) (isSaveGame f)
    (pngTexture f) (shortName f) (spaceFiles f) (tooBigFiles f).

Definition fd_i3dFiles (v : list string) (f : FileDetail) : FileDetail :=
  mkFileDetail (copyName f) (extraFiles f) (fileDate f) (fileSize f)
    (fullPath f) v (imageDDS f) (imageNonDDS f) (isFolder f) (isSaveGame f)
    (pngTexture f) (shortName f) (spaceFiles f) (tooBigFiles f).

Definition fd_imageDDS (v : list string) (f : FileDetail) : FileDetail :=
  mkFileDetail (copyName f) (extraFiles f) (fileDate f) (fileSize f)
    (fullPath f) (i3dFiles f) v (imageNonDDS f) (isFolder f) (isSaveGame f)
    (pngTexture f) (shortName f) (spaceFiles f) (tooBigFiles f).

Definition fd_imageNonDDS (v : list string) (f : FileDetail) : FileDetail :=
  mkFileDetail (copyName f) (extraFiles f) (fileDate f) (fileSize f)
    (fullPath f) (i3dFiles f) (imageDDS f) v (isFolder f) (isSaveGame f)
    (pngTexture f) (shortName f) (spaceFiles f) (tooBigFiles f).

Definition fd_isSaveGame (v : bool) (f : FileDetail) : FileDetail :=
  mkFileDetail (copyName f) (extraFiles f) (fileDate f) (fileSize f)
    (fullPath f) (i3dFiles f) (imageDDS f) (imageNonDDS f) (isFolder f) v
    (pngTexture f) (shortName f) (spaceFiles f) (tooBigFiles f).

Definition fd_pngTexture (v : list string) (f : FileDetail) : FileDetail :=
  mkFileDetail (copyName f) (extraFiles f) (fileDate f) (fileSize f)
    (fullPath f) (i3dFiles f) (imageDDS f) (imageNonDDS f) (isFolder f)
    (isSaveGame f) v (shortName f) (spaceFiles f) (tooBigFiles f).

Definition fd_spaceFiles (v : list string) (f : FileDetail) : FileDetail :=
  mkFileDetail (copyName f) (extraFiles f) (fileDate f) (fileSize f)
    (fullPath f) (i3dFiles f) (imageDDS f) (imageNonDDS f) (isFolder f)
    (isSaveGame f) (pngTexture f) (shortName f) v (tooBigFiles f).

Definition fd_tooBigFiles (v : list string) (f : FileDetail) : FileDetail :=
  mkFileDetail (copyName f) (extraFiles f) (fileDate f) (fileSize f)
    (fullPath f) (i3dFiles f) (imageDDS f) (imageNonDDS f) (isFolder f)
    (isSaveGame f) (pngTexture f) (shortName f) (spaceFiles f) v.

Definition md_author (v : jsval) (d : ModDesc) : ModDesc :=
  mkModDesc v (depend d) (descVersion d) (iconFileName d) (iconImageCache d)
    (mapConfigFile d) (multiPlayer d) (scriptFiles d) (storeItems d)
    (version d).

Definition md_depend (v : jsval) (d : ModDesc) : ModDesc :=
  mkModDesc (author d) v (descVersion d) (iconFileName d) (iconImageCache d)
    (mapConfigFile d) (multiPlayer d) (scriptFiles d) (storeItems d)
    (version d).

Definition md_descVersion (v : jsval) (d : ModDesc) : ModDesc :=
  mkModDesc (author d) (depend d) v (iconFileName d) (iconImageCache d)
    (mapConfigFile d) (multiPlayer d) (scriptFiles d) (storeItems d)
    (version d).

Definition md_mapConfigFile (v : jsval) (d : ModDesc) : ModDesc :=
  mkModDesc (author d) (depend d) (descVersion d) (iconFileName d)
    (iconImageCache d) v (multiPlayer d) (scriptFiles d) (storeItems d)
    (version d).

Definition md_multiPlayer (v : jsval) (d : ModDesc) : ModDesc :=
  mkModDesc (author d) (depend d) (descVersion d) (iconFileName d)
    (iconImageCache d) (mapConfigFile d) v (scriptFiles d) (storeItems d)
    (version d).

Definition md_storeItems (v : jsval) (d : ModDesc) : ModDesc :=
  mkModDesc (author d) (depend d) (descVersion d) (iconFileName d)
    (iconImageCache d) (mapConfigFile d) (multiPlayer d) (scriptFiles d) v
    (version d).

Definition md_iconFileName (v : option string) (d : ModDesc) : ModDesc :=
  mkModDesc (author d) (depend d) (descVersion d) v (iconImageCache d)
    (mapConfigFile d) (multiPlayer d) (scriptFiles d) (storeItems d)
    (version d).

Definition md_iconImageCache (v : option string) (d : ModDesc) : ModDesc :=
  mkModDesc (author d) (depend d) (descVersion d) (iconFileName d) v
    (mapConfigFile d) (multiPlayer d) (scriptFiles d) (storeItems d)
    (version d).

Definition md_scriptFiles (v : Z) (d : ModDesc) : ModDesc :=
  mkModDesc (author d) (depend d) (descVersion d) (iconFileName d)
    (iconImageCache d) (mapConfigFile d) (multiPlayer d) v (storeItems d)
    (version d).

Definition md_version (v : jsval) (d : ModDesc) : ModDesc :=
  mkModDesc (author d) (depend d) (descVersion d) (iconFileName d)
    (iconImageCache d) (mapConfigFile d) (multiPlayer d) (scriptFiles d)
    (storeItems d) v.

(** *** Writing a flag *)

Definition reg_get (c : category) (r : Registry) : Flags :=
  match c with
  | Broken => flag_broken r
  | Info => flag_info r
  | Problem => flag_problem r
  end.

Definition reg_set (c : category) (k : string) (v : bool) (r : Registry) : Registry :=
  match c with
  | Broken => mkRegistry (Obj.set k v (flag_broken r)) (flag_info r) (flag_problem r)
  | Info => mkRegistry (flag_broken r) (Obj.set k v (flag_info r)) (flag_problem r)
  | Problem => mkRegistry (flag_broken r) (flag_info r) (Obj.set k v (flag_problem r))
  end.

(** [this.#flag_<c>[k] = v]; the registry it replaces goes to the history *)
Definition assignFlag (c : category) (k : string) (v : bool) (st : State) : State :=
  mkState (maxFilesType st) (reg_set c k v (flags st)) (modDesc st)
          (modDescParsed st) (md5Sum st) (fileDetail st) (l10n st)
          (flags st :: history st).

Definition util_raiseFlag_problem (flag : string) : State -> State :=
  assignFlag Problem flag true.
Definition util_raiseFlag_broken (flag : string) : State -> State :=
  assignFlag Broken flag true.
Definition util_raiseFlag_info (flag : string) : State -> State :=
  assignFlag Info flag true.

(** the registries of a run in the order they came about, the current one
    last *)
Definition registries (st : State) : list Registry :=
  rev (flags st :: history st).

(** ** Field initialisers and constructor *)

Definition fileSizeMap : Obj.t Z :=
  [ ("cache", 10485760); ("dds", 12582912); ("gdm", 18874368);
    ("shapes", 268435456); ("xml", 262144) ].

Definition declaredFlags : Registry :=
  mkRegistry
    [ ("FILE_ERROR_GARBAGE_FILE", false);
      ("FILE_ERROR_LIKELY_COPY", false);
      ("FILE_ERROR_LIKELY_ZIP_PACK", false);
      ("FILE_ERROR_NAME_INVALID", false);
      ("FILE_ERROR_NAME_STARTS_DIGIT", false);
      ("FILE_ERROR_UNREADABLE_ZIP", false);
      ("FILE_ERROR_UNSUPPORTED_ARCHIVE", false);
      ("MOD_ERROR_NO_MOD_VERSION", false);
      ("NOT_MOD_MODDESC_MISSING", false);
      ("NOT_MOD_MODDESC_PARSE_ERROR", false);
      ("NOT_MOD_MODDESC_VERSION_OLD_OR_MISSING", false) ]
    [ ("INFO_NO_MULTIPLAYER_UNZIPPED", false);
      ("FILE_IS_A_SAVEGAME", false);
      ("MALICIOUS_CODE", false) ]
    [ ("INFO_MIGHT_BE_PIRACY", false);
      ("MOD_ERROR_MODDESC_DAMAGED_RECOVERABLE", false);
      ("MOD_ERROR_NO_MOD_ICON", false);
      ("PERF_DDS_TOO_BIG", false);
      ("PERF_GDM_TOO_BIG", false);
      ("PERF_GRLE_TOO_MANY", false);
      ("PERF_HAS_EXTRA", false);
      ("PERF_I3D_TOO_BIG", false);
      ("PERF_L10N_NOT_SET", false);
      ("PERF_PDF_TOO_MANY", false);
      ("PERF_PNG_TOO_MANY", false);
      ("PERF_SHAPES_TOO_BIG", false);
      ("PERF_SPACE_IN_FILE", false);
      ("PERF_TXT_TOO_MANY", false);
      ("PERF_XML_TOO_BIG", false);
      ("PREF_PNG_TEXTURE", false) ].

Definition declaredFields : State :=
  mkState
    [ ("grle", 10); ("pdf", 1); ("png", 128); ("txt", 2) ]
    declaredFlags
    (mkModDesc (JStr "--") (JArr []) (JNum 0) None None JNull (JBool false)
               0 (JNum 0) (JStr "--"))
    (JBool false)
    None
    (mkFileDetail None [] 0 0 EmptyString [] [] [] false false [] EmptyString
                  [] [])
    None
    [].

(** [new modFileChecker(filePath, isFolder, size, date, md5Pre)] *)
Definition constructor (filePath : string) (isFolder : bool) (size date : Z)
    (md5Pre : option string) : State :=
  let f := fileDetail declaredFields in
  let f := mkFileDetail (copyName f) (extraFiles f) date size filePath
             (i3dFiles f) (imageDDS f) (imageNonDDS f) isFolder
             (isSaveGame f) (pngTexture f) (Path.parse_name filePath)
             (spaceFiles f) (tooBigFiles f) in
  let st := with_md5Sum md5Pre (with_fileDetail f declaredFields) in
  assignFlag Info "INFO_NO_MULTIPLAYER_UNZIPPED" isFolder st.

(** ** Name validator *)

(** [/unzip/i] *)
Definition re_unzip (s : string) : bool :=
  Str.includes (Str.toLowerCase s) "unzip".

(** [/^\d/] *)
Definition re_startsDigit (s : string) : bool :=
  match s with
  | String c _ => Str.isDigit c
  | EmptyString => false
  end.

(** [/^[A-Z_a-z]\w+$/] *)
Definition re_identifier (s : string) : bool :=
  match s with
  | String c (String d r) =>
      (Str.isAlpha c || Ascii.eqb c "_"%char) && Str.isWord d && Str.allChars Str.isWord r
  | _ => false
  end.

(** a tail [p] followed by [.+$]: one or more characters up to the end of
    the input, none of them a line terminator *)
Definition re_tail (p rest : string) : bool :=
  String.prefix p rest &&
  let t := substring (Str.len p) (Str.len rest - Str.len p) rest in
  negb (String.eqb t EmptyString) &&
  Str.allChars (fun c => negb (Str.isLineTerminator c)) t.

(** [/^([A-Za-z]\w+)(?: - .+$| \(.+$)/]: the first group when it matches.
    The group stops where the word characters stop, since what follows it
    has to be a space. *)
Definition re_copyName (s : string) : option string :=
  match s with
  | String c r =>
      if Str.isAlpha c then
        let (w, rest) := Str.span Str.isWord r in
        if String.eqb w EmptyString then None
        else if re_tail " - " rest || re_tail " (" rest then Some (String c w)
        else None
      else None
  | EmptyString => None
  end.

(** the getter [#doStep_validFileName]: its value and the state it leaves *)
Definition doStep_validFileName (st : State) : bool * State :=
  let fullModPath := fullPath (fileDetail st) in
  let shortName := shortName (fileDetail st) in
  if negb (isFolder (fileDetail st)) && negb (Str.endsWith fullModPath ".zip") then
    if Str.endsWith fullModPath ".rar" || Str.endsWith fullModPath ".7z" then
      (false, util_raiseFlag_broken "FILE_ERROR_UNSUPPORTED_ARCHIVE" st)
    else
      (false, util_raiseFlag_broken "FILE_ERROR_GARBAGE_FILE" st)
  else
    let st := if re_unzip shortName
              then util_raiseFlag_broken "FILE_ERROR_LIKELY_ZIP_PACK" st
              else st in
    if re_startsDigit shortName then
      (false, util_raiseFlag_broken "FILE_ERROR_NAME_STARTS_DIGIT" st)
    else if negb (re_identifier shortName) then
      match re_copyName shortName with
      | Some base =>
          let st := util_raiseFlag_broken "FILE_ERROR_LIKELY_COPY" st in
          (false, with_fileDetail (fd_copyName (Some base) (fileDetail st)) st)
      | None => (false, st)
      end
    else (true, st).

(** ** File classifier and quota tracker *)

(** [#util_size_check(size, type, fileName, flagPart)]; a type outside the
    size table would compare against [undefined], which is never exceeded *)
Definition util_size_check (size : Z) (type fileName flagPart : string)
    (st : State) : State :=
  match Obj.get type fileSizeMap with
  | Some limit =>
      if size >? limit then
        let st := with_fileDetail
                    (fd_tooBigFiles (tooBigFiles (fileDetail st) ++ [fileName])
                                    (fileDetail st)) st in
        util_raiseFlag_problem ("PERF_" ++ flagPart ++ "_TOO_BIG")%string st
      else st
  | None => st
  end.

(** [#util_tick_count(type)]: [this.#maxFilesType[type]--].  For a type
    outside the quota table the source stores a not-a-number under a new
    key; no call reaches that case and the table is left as it is. *)
Definition util_tick_count (type : string) (st : State) : State :=
  match Obj.get type (maxFilesType st) with
  | Some n => with_maxFilesType (Obj.set type (n - 1) (maxFilesType st)) st
  | None => st
  end.

Definition knownGood : list string :=
  [ ""; "png"; "dds"; "i3d"; "shapes"; "lua"; "gdm"; "cache"; "xml"; "grle";
    "pdf"; "txt"; "gls"; "anim"; "ogg" ]%string.

Definition has (l : list string) (s : string) : bool :=
  existsb (String.eqb s) l.

(** [#util_countUnknown(shortSuffix, fileName)] *)
Definition util_countUnknown (shortSuffix fileName : string) (st : State)
    : bool * State :=
  if negb (has knownGood shortSuffix) then
    let st := if String.eqb shortSuffix "l64" || String.eqb shortSuffix "dat"
              then util_raiseFlag_problem "INFO_MIGHT_BE_PIRACY" st
              else st in
    let st := util_raiseFlag_problem "PERF_HAS_EXTRA" st in
    (true, with_fileDetail
             (fd_extraFiles (extraFiles (fileDetail st) ++ [fileName])
                            (fileDetail st)) st)
  else (false, st).

Section Pipeline.

Variable req : requiredItems.
Variable h : fileHandlerAsync.

(** [#util_checkLUA(fileName)]; the two patterns are [/\.deleteFolder/]
    and [/\.deleteFile/] *)
Definition util_checkLUA (fileName : string) (st : State) : State :=
  if has (malwareFalse req) (shortName (fileDetail st)) then st
  else
    match h_readText h fileName with
    | None => st
    | Some luaContents =>
        if Str.includes luaContents ".deleteFolder" then
          util_raiseFlag_info "MALICIOUS_CODE" st
        else if Str.includes luaContents ".deleteFile" then
          util_raiseFlag_info "MALICIOUS_CODE" st
        else st
    end.

(** [#util_countFile(suffix, fileName, size, fullFileName)]; the chain of
    tests is the [switch] on [shortSuffix], case labels as written *)
Definition util_countFile (suffix fileName : string) (size : Z)
    (fullFileName : string) (st : State) : State :=
  let shortSuffix := Str.substring1 suffix in
  let (unknown, st) := util_countUnknown shortSuffix fileName st in
  if unknown then st
  else if String.eqb shortSuffix "png" then
    let st := util_tick_count "png" st in
    if negb (Str.endsWith fileName "_weight.png") then
      let st := with_fileDetail
                  (fd_imageNonDDS (imageNonDDS (fileDetail st) ++ [fileName])
                                  (fileDetail st)) st in
      with_fileDetail
        (fd_pngTexture (pngTexture (fileDetail st) ++ [fileName])
                       (fileDetail st)) st
    else st
  else if String.eqb shortSuffix "dds" then
    let st := with_fileDetail
                (fd_imageDDS (imageDDS (fileDetail st) ++ [fileName])
                             (fileDetail st)) st in
    util_size_check size "dds" fileName "DDS" st
  else if String.eqb shortSuffix "i3d" then
    with_fileDetail
      (fd_i3dFiles (i3dFiles (fileDetail st) ++ [fileName]) (fileDetail st))
      st
  else if String.eqb shortSuffix "lua" then
    let st := with_modDesc
                (md_scriptFiles (scriptFiles (modDesc st) + 1) (modDesc st))
                st in
    util_checkLUA fullFileName st
  else if String.eqb shortSuffix "cache" then
    util_size_check size shortSuffix fileName "I3D" st
  else if String.eqb shortSuffix "gdm" || String.eqb shortSuffix "xml"
          || String.eqb shortSuffix "shapes" then
    util_size_check size shortSuffix fileName (Str.toUpperCase shortSuffix) st
  else if String.eqb shortSuffix ".grle" || String.eqb shortSuffix ".pdf"
          || String.eqb shortSuffix ".txt" then
    util_tick_count shortSuffix st
  else st.

(** one turn of the loop of [#doStep_fileCounts] *)
Definition fileCounts_entry (st : State) (checkFile : string) : State :=
  let fileInfo := h_fileInfo h checkFile in
  let fileName := checkFile in
  let fullName := if isFolder (fileDetail st)
                  then h_relativeFolder h checkFile else checkFile in
  let st :=
    if Str.includes fileName " " then
      let st := with_fileDetail
                  (fd_spaceFiles (spaceFiles (fileDetail st) ++ [fileName])
                                 (fileDetail st)) st in
      util_raiseFlag_problem "PERF_SPACE_IN_FILE" st
    else st in
  if fi_isFolder fileInfo then st
  else util_countFile (Path.extname fileName) fileName (fi_size fileInfo)
                      fullName st.

(** the loop of [#doStep_fileCounts] over a listing *)
Definition fileCounts_walk (files : list string) (st : State) : State :=
  fold_left fileCounts_entry files st.

(** [this.#maxFilesType.<type> < 1] *)
Definition quotaSpent (type : string) (st : State) : bool :=
  match Obj.get type (maxFilesType st) with
  | Some n => n <? 1
  | None => false
  end.

(** [#doStep_fileCounts()] *)
Definition doStep_fileCounts (st : State) : State :=
  let st := fileCounts_walk (h_list h) st in
  let st := assignFlag Problem "PERF_GRLE_TOO_MANY" (quotaSpent "grle" st) st in
  let st := assignFlag Problem "PERF_PNG_TOO_MANY" (quotaSpent "png" st) st in
  let st := assignFlag Problem "PERF_PDF_TOO_MANY" (quotaSpent "pdf" st) st in
  assignFlag Problem "PERF_TXT_TOO_MANY" (quotaSpent "txt" st) st.

(** ** Descriptor extractor *)

(** [#modDesc_default(key, fallback)] *)
Definition modDesc_default (key fallback : jsval) : jsval :=
  JS.coalesce key fallback.

(** the icon name the descriptor declares: [iconfilename] when it is
    text, else its first element when that is text, else the empty
    string *)
Definition declaredIcon (parsed : jsval) : string :=
  match JS.get parsed "iconfilename" with
  | JStr s => s
  | v => match JS.first v with
         | JStr s => s
         | _ => EmptyString
         end
  end.

(** the name after the extension has been forced to [.dds] *)
Definition ddsIconName (iconFileName : string) : string :=
  if negb (Str.endsWith iconFileName ".dds")
  then (Str.slice0_neg iconFileName 4 ++ ".dds")%string
  else iconFileName.

(** [Object.hasOwn(v, k)] for a key that is neither an index nor
    [length] *)
Definition hasOwn (v : jsval) (k : string) : bool :=
  match v with
  | JObj props => Obj.hasOwn k props
  | _ => false
  end.

(** [#doStep_parseModDesc()]; [#doStep_parseActions], its last call,
    fills [modDesc.actions] and [modDesc.binds] inside a [try]/[catch]
    and is not part of the embedding *)
Definition doStep_parseModDesc (st : State) : State :=
  let st := with_modDescParsed (h_readXML h) st in
  let parsed := modDescParsed st in
  match parsed with
  | JBool false => util_raiseFlag_broken "NOT_MOD_MODDESC_PARSE_ERROR" st
  | JNull => util_raiseFlag_broken "NOT_MOD_MODDESC_MISSING" st
  | _ =>
      (* Get modDesc.xml version *)
      let st := with_modDesc
                  (md_descVersion
                     (modDesc_default
                        (JS.get (JS.get parsed "$") "DESCVERSION") (JNum 0))
                     (modDesc st)) st in
      let st := assignFlag Broken "NOT_MOD_MODDESC_VERSION_OLD_OR_MISSING"
                  (JS.isNum (descVersion (modDesc st)) 0) st in
      (* Get MOD Version *)
      let st := with_modDesc
                  (md_version
                     (modDesc_default
                        (JS.optToString (JS.get parsed "version"))
                        (JStr "0.0.0.0"))
                     (modDesc st)) st in
      let st := assignFlag Broken "MOD_ERROR_NO_MOD_VERSION"
                  (JS.isStr (version (modDesc st)) "0.0.0.0") st in
      let st := with_modDesc
                  (md_author
                     (modDesc_default (JS.get parsed "author") (JStr "--"))
                     (modDesc st)) st in
      let st := with_modDesc
                  (md_multiPlayer
                     (modDesc_default
                        (JS.get (JS.get (JS.get parsed "multiplayer") "$")
                                "SUPPORTED")
                        (JBool false))
                     (modDesc st)) st in
      let st := with_modDesc
                  (md_storeItems
                     (modDesc_default
                        (JS.get (JS.get (JS.get parsed "storeitems") "storeitem")
                                "length")
                        (JNum 0))
                     (modDesc st)) st in
      let st := with_modDesc
                  (md_mapConfigFile
                     (modDesc_default
                        (JS.get
                           (JS.get (JS.first (JS.get (JS.get parsed "maps") "map"))
                                   "$")
                           "CONFIGFILENAME")
                        JNull)
                     (modDesc st)) st in
      let st := with_modDesc
                  (md_depend
                     (modDesc_default
                        (JS.get (JS.get parsed "dependencies") "dependency")
                        (JArr []))
                     (modDesc st)) st in
      let st := assignFlag Problem "INFO_MIGHT_BE_PIRACY"
                  (hasOwn parsed "productid") st in
      (* Get icon filename *)
      let iconFileName := ddsIconName (declaredIcon parsed) in
      if has (imageDDS (fileDetail st)) iconFileName then
        with_modDesc (md_iconFileName (Some iconFileName) (modDesc st)) st
      else
        util_raiseFlag_problem "MOD_ERROR_NO_MOD_ICON" st
  end.

(** ** Localization resolver *)

(** [#modDesc_localString(key, fallback)]; indexing plain data does not
    throw, so the [catch] has nothing to catch *)
Definition modDesc_localString (key fallback : string) (st : State) : jsval :=
  let searchTree :=
    JS.coalesce (JS.get (modDescParsed st) (Str.toLowerCase key))
                (JStr fallback) in
  match searchTree with
  | JNull => JStr fallback
  | _ =>
      JS.coalesce
        (JS.coalesce
           (JS.coalesce (JS.get searchTree (currentLocale req))
                        (JS.get searchTree "en"))
           (JS.get searchTree "de"))
        (JStr fallback)
  end.

(** [#doStep_l10n()] *)
Definition doStep_l10n (st : State) : State :=
  let title := modDesc_localString "title" "--" st in
  let desc := modDesc_localString "description" EmptyString st in
  let st := assignFlag Info "PERF_L10N_NOT_SET"
              (JS.isStr title "--" || JS.isStr desc EmptyString) st in
  with_l10n (Some (title, desc)) st.

End Pipeline.

(** ** Report assembler and pipeline driver *)

(** the [record] part of [storable]; [uuid], [currentCollection] and the
    log lines are not part of the embedding *)
Record modRecord : Type := mkRecord {
  badgeArray    : list string;
  canNotUse     : bool;
  rec_fileDetail : FileDetail;
  issues        : list string;
  rec_l10n      : option (jsval * jsval);
  rec_md5Sum    : option string;
  rec_modDesc   : ModDesc;
}.

(** the getter [#doStep_canUse], stored as [canNotUse] *)
Definition doStep_canUse (st : State) : bool :=
  if isSaveGame (fileDetail st) then true
  else anyTrue (flag_broken (flags st)).

(** the getter [#doStep_badges] *)
Definition doStep_badges (st : State) : list string :=
  let badges : Flags :=
    [ ("broken", if isSaveGame (fileDetail st) then false
                 else anyTrue (flag_broken (flags st)));
      ("folder", isFolder (fileDetail st));
      ("malware", flagOf "MALICIOUS_CODE" (flag_info (flags st)));
      ("noMP", negb (JS.truthy (multiPlayer (modDesc st)))
               && isFolder (fileDetail st));
      ("notmod", flagOf "NOT_MOD_MODDESC_MISSING" (flag_broken (flags st)));
      ("pconly", scriptFiles (modDesc st) >? 0);
      ("problem", if isSaveGame (fileDetail st) then false
                  else anyTrue (flag_problem (flags st)));
      ("savegame", isSaveGame (fileDetail st)) ] in
  trueNames badges.

(** [{...this.#flag_broken, ...this.#flag_problem, ...this.#flag_info}] *)
Definition mergedFlags (r : Registry) : Flags :=
  Obj.spread (Obj.spread (flag_broken r) (flag_problem r)) (flag_info r).

(** the getter [storable] *)
Definition storable (st : State) : modRecord :=
  mkRecord (doStep_badges st) (doStep_canUse st) (fileDetail st)
           (trueNames (mergedFlags (flags st))) (l10n st) (md5Sum st)
           (modDesc st).

Section Driver.

Variable req : requiredItems.
Variable h : fileHandlerAsync.

(** the icon [try] block of [getInfo]: any failure raises the icon flag *)
Definition getInfo_icon (st : State) : State :=
  match iconFileName (modDesc st) with
  | Some name =>
      if flagOf "MOD_ERROR_NO_MOD_ICON" (flag_problem (flags st))
         || negb (h_exists h name)
      then util_raiseFlag_problem "MOD_ERROR_NO_MOD_ICON" st
      else
        match parseDDS req (h_readBin h name) with
        | DecodeReturns image =>
            with_modDesc (md_iconImageCache image (modDesc st)) st
        | DecodeThrows => util_raiseFlag_problem "MOD_ERROR_NO_MOD_ICON" st
        end
  | None => util_raiseFlag_problem "MOD_ERROR_NO_MOD_ICON" st
  end.

(** the outer [try] block of [getInfo]; each early result is a [throw]
    caught by the outer [catch], which only logs.  The map stage between
    the descriptor and the icon writes crop data only and is not part of
    the embedding. *)
Definition getInfo_try (isValidMod : bool) (st : State) : State :=
  let st := if negb isValidMod
            then util_raiseFlag_broken "FILE_ERROR_NAME_INVALID" st
            else st in
  let couldOpen := h_open h in
  if negb couldOpen then
    if negb isValidMod then st
    else util_raiseFlag_broken "FILE_ERROR_UNREADABLE_ZIP" st
  else if h_exists h "careerSavegame.xml" then
    let st := with_fileDetail (fd_isSaveGame true (fileDetail st)) st in
    let st := with_modDesc (md_version (JStr "--") (modDesc st)) st in
    util_raiseFlag_info "FILE_IS_A_SAVEGAME" st
  else if negb isValidMod then st
  else if negb (h_exists h "modDesc.xml") then
    let st := util_raiseFlag_broken "NOT_MOD_MODDESC_MISSING" st in
    with_md5Sum None st
  else
    let st := doStep_fileCounts req h st in
    let st := doStep_parseModDesc h st in
    getInfo_icon st.

(** the instance when [getInfo] reads [storable]: name check, [try]
    block, then the [finally] block and the two resets *)
Definition getInfo_state (st : State) : State :=
  let (isValidMod, st) := doStep_validFileName st in
  let st := getInfo_try isValidMod st in
  let st := doStep_l10n req st in
  with_modDescParsed JNull st.

(** [getInfo()] *)
Definition getInfo (st : State) : modRecord := storable (getInfo_state st).

End Driver.

(** ** Example artifacts *)

Module Examples.

(** a file-access layer over a fixed listing: entries with their kind and
    size, the text files, and what reading the descriptor gives *)
Definition handleOf (opens : bool) (entries : Obj.t FileInfo)
    (texts : Obj.t string)
    (xml : option (option (list (string * jsval)))) : fileHandlerAsync :=
  mkHandle opens
    (has (Obj.keys entries))
    (Obj.keys entries)
    (fun n => match Obj.get n entries with
              | Some i => i
              | None => mkFileInfo false 0
              end)
    (fun n => n)
    (fun n => Obj.get n texts)
    (fun n => Obj.get n texts)
    xml.

Definition file (size : Z) : FileInfo := mkFileInfo false size.
Definition folder : FileInfo := mkFileInfo true 0.

(** locale en, a decoder that accepts whatever it is given, no
    allow-listed names *)
Definition req : requiredItems :=
  mkRequired "en" (fun b => DecodeReturns b) [].

(** a descriptor with version, schema version, title and description *)
Definition goodDesc : list (string * jsval) :=
  [ ("$", JObj [("DESCVERSION", JNum 70)]);
    ("version", JStr "1.0.0.0");
    ("title", JObj [("en", JStr "A mod")]);
    ("description", JObj [("en", JStr "It does things")]);
    ("iconfilename", JStr "icon.png") ].

End Examples.

Module SaveGameExample.
Import Examples.

(** an archive holding a career save, under a valid name *)
Definition h : fileHandlerAsync :=
  handleOf true [("careerSavegame.xml", file 100)] [] None.
Definition st0 : State :=
  constructor "/mods/savegame1.zip" false 10 20 (Some "abc").

End SaveGameExample.

Module NoDescExample.
Import Examples.

(** an archive without descriptor *)
Definition h : fileHandlerAsync :=
  handleOf true [("readme.txt", file 12)] [] (Some None).
(** ... under a name the validator refuses, with a checksum *)
Definition badName : State :=
  constructor "/mods/My Mod.zip" false 10 20 (Some "abc").
(** ... under a name the validator accepts *)
Definition goodName : State :=
  constructor "/mods/FS22_MyMod.zip" false 10 20 (Some "abc").

End NoDescExample.

Module DirectoryExample.
Import Examples.

(** a listing with a directory whose name has a space *)
Definition h : fileHandlerAsync :=
  handleOf true [("my textures/", folder); ("modDesc.xml", file 100)] []
           (Some (Some goodDesc)).
Definition st0 : State :=
  constructor "/mods/FS22_MyMod.zip" false 10 20 None.

End DirectoryExample.

Module SizeExample.
Import Examples.

(** a texture one byte above the dds threshold, one exactly at it *)
Definition h : fileHandlerAsync :=
  handleOf true
    [ ("modDesc.xml", file 100); ("big.dds", file 12582913);
      ("fits.dds", file 12582912) ] [] (Some (Some goodDesc)).
Definition st0 : State :=
  constructor "/mods/FS22_MyMod.zip" false 10 20 None.

End SizeExample.

Module UpperCaseExample.
Import Examples.

(** a texture above the dds threshold whose extension is in capitals *)
Definition h : fileHandlerAsync :=
  handleOf true [("modDesc.xml", file 100); ("BIG.DDS", file 12582913)] []
           (Some (Some goodDesc)).
Definition st0 : State :=
  constructor "/mods/FS22_MyMod.zip" false 10 20 None.

End UpperCaseExample.

Module IconExample.
Import Examples.

(** the descriptor declares icon.png; the archive holds icon.dds and the
    classifier has been over it *)
Definition h : fileHandlerAsync :=
  handleOf true [("modDesc.xml", file 100); ("icon.dds", file 5)]
           [("icon.dds", "bytes")] (Some (Some goodDesc)).
Definition classified : State :=
  doStep_fileCounts req h (constructor "/mods/FS22_MyMod.zip" false 10 20 None).

End IconExample.

Module ThreeTxtExample.
Import Examples.

(** a mod with three text files *)
Definition h : fileHandlerAsync :=
  handleOf true
    [ ("modDesc.xml", file 100); ("icon.dds", file 5); ("a.txt", file 1);
      ("b.txt", file 1); ("c.txt", file 1) ]
    [("icon.dds", "bytes")] (Some (Some goodDesc)).
Definition st0 : State :=
  constructor "/mods/FS22_MyMod.zip" false 10 20 None.

End ThreeTxtExample.

Module PiracyExample.
Import Examples.

(** a mod that ships a .dat file; its descriptor has no product id *)
Definition h : fileHandlerAsync :=
  handleOf true
    [ ("modDesc.xml", file 100); ("icon.dds", file 5); ("data.dat", file 1) ]
    [("icon.dds", "bytes")] (Some (Some goodDesc)).
Definition st0 : State :=
  constructor "/mods/FS22_MyMod.zip" false 10 20 None.

End PiracyExample.

Module L10nExample.
Import Examples.

(** a mod in good order, but for its descriptor having neither title nor
    description *)
Definition noTitle : list (string * jsval) :=
  [ ("$", JObj [("DESCVERSION", JNum 70)]);
    ("version", JStr "1.0.0.0");
    ("iconfilename", JStr "icon.dds") ].
Definition h : fileHandlerAsync :=
  handleOf true [("modDesc.xml", file 100); ("icon.dds", file 5)]
           [("icon.dds", "bytes")] (Some (Some noTitle)).
Definition st0 : State :=
  constructor "/mods/FS22_MyMod.zip" false 10 20 None.

End L10nExample.

(** ** What the properties are stated with *)

(** every flag a run can write after the constructor, with its map *)
Definition runWrites : list (category * string) :=
  [ (Broken, "FILE_ERROR_UNSUPPORTED_ARCHIVE");
    (Broken, "FILE_ERROR_GARBAGE_FILE");
    (Broken, "FILE_ERROR_LIKELY_ZIP_PACK");
    (Broken, "FILE_ERROR_NAME_STARTS_DIGIT");
    (Broken, "FILE_ERROR_LIKELY_COPY");
    (Broken, "FILE_ERROR_NAME_INVALID");
    (Broken, "FILE_ERROR_UNREADABLE_ZIP");
    (Info, "FILE_IS_A_SAVEGAME");
    (Broken, "NOT_MOD_MODDESC_MISSING");
    (Problem, "PERF_SPACE_IN_FILE");
    (Problem, "INFO_MIGHT_BE_PIRACY");
    (Problem, "PERF_HAS_EXTRA");
    (Problem, "PERF_DDS_TOO_BIG");
    (Problem, "PERF_I3D_TOO_BIG");
    (Problem, "PERF_GDM_TOO_BIG");
    (Problem, "PERF_XML_TOO_BIG");
    (Problem, "PERF_SHAPES_TOO_BIG");
    (Info, "MALICIOUS_CODE");
    (Problem, "PERF_GRLE_TOO_MANY");
    (Problem, "PERF_PNG_TOO_MANY");
    (Problem, "PERF_PDF_TOO_MANY");
    (Problem, "PERF_TXT_TOO_MANY");
    (Broken, "NOT_MOD_MODDESC_PARSE_ERROR");
    (Broken, "NOT_MOD_MODDESC_VERSION_OLD_OR_MISSING");
    (Broken, "MOD_ERROR_NO_MOD_VERSION");
    (Problem, "MOD_ERROR_NO_MOD_ICON");
    (Info, "PERF_L10N_NOT_SET") ].

(** [P] of the current registry, [Q] of the ones left behind *)
Definition throughout (P Q : Registry -> Prop) (st : State) : Prop :=
  P (flags st) /\ Forall Q (history st).

(** the three maps bind each of their keys once *)
Definition wf_registry (r : Registry) : Prop :=
  NoDup (Obj.keys (flag_broken r)) /\
  NoDup (Obj.keys (flag_info r)) /\
  NoDup (Obj.keys (flag_problem r)).

(** the value bound to a key that the run does not write *)
Definition keeps (c0 : category) (k0 : string) (x : option bool) (r : Registry) : Prop :=
  wf_registry r /\ Obj.get k0 (reg_get c0 r) = x.

(** deciding that a run does not write a flag *)
Definition writtenb (c : category) (k : string) : bool :=
  existsb (fun w => match fst w, c with
                    | Broken, Broken | Info, Info | Problem, Problem =>
                        String.eqb (snd w) k
                    | _, _ => false
                    end) runWrites.

(** the flag [k] of the problem map is [false] in every registry of the
    run, and the report does not list its name *)
Definition neverRaised (k : string) (st : State) : Prop :=
  Forall (fun r => Obj.get k (flag_problem r) = Some false) (registries st) /\
  ~ In k (issues (storable st)).

(** what the usability sentence says of the run on [st0]: usable exactly
    when no broken flag is up, and a save-game always usable *)
Definition usable_as_stated (req : requiredItems) (h : fileHandlerAsync)
    (st0 : State) : Prop :=
  let st := getInfo_state req h st0 in
  (canNotUse (getInfo req h st0) = false
   <-> Forall (fun kv => snd kv = false) (flag_broken (flags st))) /\
  (isSaveGame (fileDetail st) = true -> canNotUse (getInfo req h st0) = false).

(** what the missing-descriptor sentence says of the run of an artifact *)
Definition missing_desc_as_stated (req : requiredItems) (h : fileHandlerAsync)
    (st0 : State) : Prop :=
  h_open h = true ->
  h_exists h "careerSavegame.xml" = false ->
  h_exists h "modDesc.xml" = false ->
  In "NOT_MOD_MODDESC_MISSING" (issues (getInfo req h st0)) /\
  canNotUse (getInfo req h st0) = true /\
  rec_md5Sum (getInfo req h st0) = None.

(** what the directory sentence says of one turn of the loop: a directory
    entry changes neither the file detail nor the registry *)
Definition directory_skipped_as_stated (req : requiredItems)
    (h : fileHandlerAsync) (st : State) (checkFile : string) : Prop :=
  fi_isFolder (h_fileInfo h checkFile) = true ->
  fileDetail (fileCounts_entry req h st checkFile) = fileDetail st /\
  flags (fileCounts_entry req h st checkFile) = flags st.


(** the type tag of a listed name: its extension without the dot, as
    [#util_countFile] computes [shortSuffix] *)
Definition typeOf (fileName : string) : string :=
  Str.substring1 (Path.extname fileName).




(** the descriptor declares the icon file name [s]: its iconfilename entry
    is the text [s], or a list whose first element is the text [s] *)
Definition declaresIcon (props : list (string * jsval)) (s : string) : Prop :=
  Obj.get "iconfilename" props = Some (JStr s) \/
  exists rest, Obj.get "iconfilename" props = Some (JArr (JStr s :: rest)).


(** ** What the further properties are stated with *)









(** a file detail with its classification lists emptied: what the walk
    does not write *)
Definition blankLists (f : FileDetail) : FileDetail :=
  mkFileDetail (copyName f) [] (fileDate f) (fileSize f) (fullPath f) [] [] []
    (isFolder f) (isSaveGame f) [] (shortName f) [] [].

(** the run gets as far as the file walk: the name is valid, the archive
    opens and holds modDesc.xml and no save-game marker *)
Definition reachesWalk (h : fileHandlerAsync) (st0 : State) : bool :=
  fst (doStep_validFileName st0) && h_open h
  && negb (h_exists h "careerSavegame.xml") && h_exists h "modDesc.xml".


(** the instance when the [finally] block of [getInfo] starts *)
Definition beforeL10n (req : requiredItems) (h : fileHandlerAsync)
    (st0 : State) : State :=
  getInfo_try req h (fst (doStep_validFileName st0))
              (snd (doStep_validFileName st0)).

Module RarExample.
Import Examples.

(** a rar archive that the file-access layer cannot open *)
Definition h : fileHandlerAsync := handleOf false [] [] None.

End RarExample.

(** * Properties *)

(** ** Objects *)

Module ObjFacts.
Section WithValue.
Variable A : Type.
Implicit Types (o : Obj.t A) (k : string) (v : A).

Lemma get_set k k' v o :
  Obj.get k (Obj.set k' v o) = if String.eqb k' k then Some v else Obj.get k o.
Proof.
  induction o as [|[k0 v0] o IH]; simpl.
  - destruct (String.eqb k' k); reflexivity.
  - destruct (String.eqb k0 k') eqn:E0; simpl.
    + apply String.eqb_eq in E0; subst k0.
      destruct (String.eqb k' k); reflexivity.
    + rewrite IH. destruct (String.eqb k0 k) eqn:E1; [|reflexivity].
      apply String.eqb_eq in E1; subst k0.
      rewrite String.eqb_sym, E0. reflexivity.
Qed.

Lemma get_set_same k v o : Obj.get k (Obj.set k v o) = Some v.
Proof. rewrite get_set, String.eqb_refl. reflexivity. Qed.

Lemma get_set_other k k' v o :
  k' <> k -> Obj.get k (Obj.set k' v o) = Obj.get k o.
Proof.
  intros N. rewrite get_set.
  destruct (String.eqb k' k) eqn:E; [|reflexivity].
  apply String.eqb_eq in E. contradiction.
Qed.

Lemma get_None_keys k o : Obj.get k o = None <-> ~ In k (Obj.keys o).
Proof.
  induction o as [|[k0 v0] o IH]; simpl.
  - tauto.
  - destruct (String.eqb k0 k) eqn:E.
    + apply String.eqb_eq in E. split; [discriminate | intros N; exfalso; tauto].
    + apply String.eqb_neq in E. rewrite IH. tauto.
Qed.

Lemma keys_set k v o :
  Obj.keys (Obj.set k v o)
  = if Obj.hasOwn k o then Obj.keys o else Obj.keys o ++ [k].
Proof.
  unfold Obj.hasOwn.
  induction o as [|[k0 v0] o IH]; simpl; [reflexivity|].
  destruct (String.eqb k0 k) eqn:E; simpl; [reflexivity|].
  rewrite IH. destruct (Obj.get k o); reflexivity.
Qed.

Lemma NoDup_keys_set k v o :
  NoDup (Obj.keys o) -> NoDup (Obj.keys (Obj.set k v o)).
Proof.
  intros N. rewrite keys_set. unfold Obj.hasOwn.
  destruct (Obj.get k o) eqn:G; [exact N|].
  apply get_None_keys in G.
  apply NoDup_app; [exact N | constructor; [simpl; tauto | constructor] |].
  intros x Hx [<-|[]]. contradiction.
Qed.

Lemma get_spread k (a b : Obj.t A) :
  Obj.get k (Obj.spread a b)
  = match Obj.get k b with
    | Some v => Some v
    | None => Obj.get k a
    end
  \/ ~ NoDup (Obj.keys b).
Proof.
  unfold Obj.spread. revert a.
  induction b as [|[k0 v0] b IH]; intros a; simpl.
  - left; reflexivity.
  - destruct (IH (Obj.set k0 v0 a)) as [E|N].
    + destruct (String.eqb k0 k) eqn:E0.
      * apply String.eqb_eq in E0; subst k0.
        destruct (Obj.get k b) eqn:G.
        -- right. intros ND. inversion ND as [|? ? Hn _]; subst.
           apply Hn. destruct (in_dec string_dec k (Obj.keys b)) as [i|n]; [exact i|].
           apply get_None_keys in n. congruence.
        -- left. rewrite E, get_set_same. reflexivity.
      * left. rewrite E. destruct (Obj.get k b); [reflexivity|].
        rewrite get_set, E0. reflexivity.
    + right. intros ND. inversion ND; subst. contradiction.
Qed.

Lemma NoDup_keys_spread (a b : Obj.t A) :
  NoDup (Obj.keys a) -> NoDup (Obj.keys (Obj.spread a b)).
Proof.
  unfold Obj.spread. revert a.
  induction b as [|[k0 v0] b IH]; intros a N; simpl; [exact N|].
  apply IH, NoDup_keys_set, N.
Qed.

End WithValue.

Lemma get_spread_NoDup (A : Type) k (a b : Obj.t A) :
  NoDup (Obj.keys b) ->
  Obj.get k (Obj.spread a b)
  = match Obj.get k b with
    | Some v => Some v
    | None => Obj.get k a
    end.
Proof. intros N. destruct (get_spread k a b) as [E|E]; [exact E | contradiction]. Qed.

(** the names a flag map reports are the keys it binds to [true] *)
Lemma trueNames_iff k (m : Flags) :
  NoDup (Obj.keys m) -> (In k (trueNames m) <-> Obj.get k m = Some true).
Proof.
  unfold trueNames.
  induction m as [|[k0 v0] m IH]; simpl; intros N.
  - split; [tauto | discriminate].
  - inversion N as [|? ? Hn N']; subst. specialize (IH N').
    destruct (String.eqb k0 k) eqn:E.
    + apply String.eqb_eq in E; subst k0.
      destruct v0; simpl.
      * split; [reflexivity | auto].
      * split; [|discriminate]. intros Hin. exfalso. apply Hn.
        apply in_map_iff in Hin. destruct Hin as [[k1 v1] [<- Hin]].
        apply filter_In in Hin. apply in_map_iff. exists (k1, v1). tauto.
    + apply String.eqb_neq in E.
      destruct v0; simpl; rewrite IH; [|tauto].
      split; [intros [?|?]; [contradiction | assumption] | auto].
Qed.

Lemma anyTrue_iff (m : Flags) :
  anyTrue m = true <-> exists k, In (k, true) m.
Proof.
  unfold anyTrue. rewrite existsb_exists. split.
  - intros [[k v] [Hin Hv]]. simpl in Hv. subst v. exists k. exact Hin.
  - intros [k Hin]. exists (k, true). split; [exact Hin | reflexivity].
Qed.

Lemma get_In (A : Type) k (v : A) (o : Obj.t A) :
  Obj.get k o = Some v -> In (k, v) o.
Proof.
  induction o as [|[k0 v0] o IH]; simpl; [discriminate|].
  destruct (String.eqb k0 k) eqn:E.
  - apply String.eqb_eq in E; subst k0. intros [= ->]. left; reflexivity.
  - intros G. right. apply IH, G.
Qed.

End ObjFacts.

(** ** The flags a run writes *)

Ltac in_writes :=
  unfold runWrites; simpl; repeat (first [ left; reflexivity | right ]).

(** A property [P] of registries that no write of [runWrites] breaks holds
    of the registry a run ends with as soon as it holds of the one it
    starts with; what [P] entails holds of every registry in between. *)
Section RegistryInvariant.

Variables P Q : Registry -> Prop.
Hypothesis P_write :
  forall c k v r, In (c, k) runWrites -> P r -> P (reg_set c k v r).
Hypothesis P_Q : forall r, P r -> Q r.

Lemma thr_assign c k v st :
  In (c, k) runWrites -> throughout P Q st -> throughout P Q (assignFlag c k v st).
Proof.
  unfold throughout, assignFlag; simpl. intros Hin [H1 H2]. split.
  - apply P_write; assumption.
  - constructor; [apply P_Q, H1 | exact H2].
Qed.

Lemma thr_fd f st : throughout P Q st -> throughout P Q (with_fileDetail f st).
Proof. exact (fun H => H). Qed.
Lemma thr_md d st : throughout P Q st -> throughout P Q (with_modDesc d st).
Proof. exact (fun H => H). Qed.
Lemma thr_quota q st : throughout P Q st -> throughout P Q (with_maxFilesType q st).
Proof. exact (fun H => H). Qed.
Lemma thr_parsed v st : throughout P Q st -> throughout P Q (with_modDescParsed v st).
Proof. exact (fun H => H). Qed.
Lemma thr_md5 m st : throughout P Q st -> throughout P Q (with_md5Sum m st).
Proof. exact (fun H => H). Qed.
Lemma thr_l10n t st : throughout P Q st -> throughout P Q (with_l10n t st).
Proof. exact (fun H => H). Qed.

Ltac thr :=
  unfold util_raiseFlag_problem, util_raiseFlag_broken, util_raiseFlag_info;
  repeat first
    [ assumption
    | apply thr_fd | apply thr_md | apply thr_quota | apply thr_parsed
    | apply thr_md5 | apply thr_l10n
    | apply thr_assign; [in_writes|] ].

Lemma thr_validFileName st :
  throughout P Q st -> throughout P Q (snd (doStep_validFileName st)).
Proof.
  intros H. unfold doStep_validFileName.
  destruct (negb (isFolder (fileDetail st)) && _).
  - destruct (_ || _); simpl; thr.
  - assert (H1 : throughout P Q
              (if re_unzip (shortName (fileDetail st))
               then util_raiseFlag_broken "FILE_ERROR_LIKELY_ZIP_PACK" st
               else st)) by (destruct (re_unzip _); thr).
    destruct (re_startsDigit _); simpl; [thr|].
    destruct (negb (re_identifier _)); simpl; [|thr].
    destruct (re_copyName _); simpl; thr.
Qed.

Lemma thr_size_check size type fileName flagPart st :
  In (Problem, ("PERF_" ++ flagPart ++ "_TOO_BIG")%string) runWrites ->
  throughout P Q st -> throughout P Q (util_size_check size type fileName flagPart st).
Proof.
  intros Hin H. unfold util_size_check.
  destruct (Obj.get type fileSizeMap); [|exact H].
  destruct (size >? z); [|exact H].
  unfold util_raiseFlag_problem. apply thr_assign; [exact Hin|]. thr.
Qed.

Lemma thr_tick_count type st :
  throughout P Q st -> throughout P Q (util_tick_count type st).
Proof. intros H. unfold util_tick_count. destruct (Obj.get _ _); thr. Qed.

Lemma thr_countUnknown shortSuffix fileName st :
  throughout P Q st -> throughout P Q (snd (util_countUnknown shortSuffix fileName st)).
Proof.
  intros H. unfold util_countUnknown.
  destruct (negb _); simpl; [|exact H].
  destruct (_ || _); thr.
Qed.

Variable req : requiredItems.
Variable h : fileHandlerAsync.

Lemma thr_checkLUA fileName st :
  throughout P Q st -> throughout P Q (util_checkLUA req h fileName st).
Proof.
  intros H. unfold util_checkLUA.
  destruct (has _ _); [exact H|].
  destruct (h_readText h fileName); [|exact H].
  destruct (Str.includes _ _); [thr|].
  destruct (Str.includes _ _); thr.
Qed.

Lemma thr_countFile suffix fileName size fullFileName st :
  throughout P Q st ->
  throughout P Q (util_countFile req h suffix fileName size fullFileName st).
Proof.
  intros H. unfold util_countFile.
  pose proof (thr_countUnknown (Str.substring1 suffix) fileName H) as HU.
  destruct (util_countUnknown _ _ _) as [unknown st1]; simpl in HU.
  destruct unknown; [exact HU|].
  destruct (String.eqb _ "png").
  { destruct (negb _); thr; apply thr_tick_count; exact HU. }
  destruct (String.eqb _ "dds").
  { apply thr_size_check; [in_writes | thr]. }
  destruct (String.eqb _ "i3d"); [thr|].
  destruct (String.eqb _ "lua"); [apply thr_checkLUA; thr|].
  destruct (String.eqb _ "cache"); [apply thr_size_check; [in_writes | thr]|].
  destruct (String.eqb _ "gdm") eqn:Eg.
  { apply String.eqb_eq in Eg; rewrite Eg; simpl.
    apply thr_size_check; [in_writes | thr]. }
  destruct (String.eqb _ "xml") eqn:Ex.
  { apply String.eqb_eq in Ex; rewrite Ex; simpl.
    apply thr_size_check; [in_writes | thr]. }
  destruct (String.eqb _ "shapes") eqn:Es.
  { apply String.eqb_eq in Es; rewrite Es; simpl.
    apply thr_size_check; [in_writes | thr]. }
  simpl. destruct (_ || _); [apply thr_tick_count|]; exact HU.
Qed.

Lemma thr_entry st checkFile :
  throughout P Q st -> throughout P Q (fileCounts_entry req h st checkFile).
Proof.
  intros H. unfold fileCounts_entry.
  assert (H1 : throughout P Q
            (if Str.includes checkFile " "
             then util_raiseFlag_problem "PERF_SPACE_IN_FILE"
                    (with_fileDetail
                       (fd_spaceFiles (spaceFiles (fileDetail st) ++ [checkFile])
                                      (fileDetail st)) st)
             else st)) by (destruct (Str.includes _ _); thr).
  destruct (fi_isFolder _); [exact H1|].
  apply thr_countFile, H1.
Qed.

Lemma thr_walk files st :
  throughout P Q st -> throughout P Q (fileCounts_walk req h files st).
Proof.
  unfold fileCounts_walk. revert st.
  induction files as [|f files IH]; intros st H; simpl; [exact H|].
  apply IH, thr_entry, H.
Qed.

Lemma thr_fileCounts st :
  throughout P Q st -> throughout P Q (doStep_fileCounts req h st).
Proof.
  intros H. unfold doStep_fileCounts. thr. apply thr_walk, H.
Qed.

Lemma thr_parseModDesc st :
  throughout P Q st -> throughout P Q (doStep_parseModDesc h st).
Proof.
  intros H. unfold doStep_parseModDesc.
  destruct (modDescParsed (with_modDescParsed (h_readXML h) st)) as [| |[|]| | | |];
    try (destruct (has _ _)); thr.
Qed.

Lemma thr_icon st : throughout P Q st -> throughout P Q (getInfo_icon req h st).
Proof.
  intros H. unfold getInfo_icon.
  destruct (iconFileName _); [|thr].
  destruct (_ || _); [thr|].
  destruct (parseDDS _ _); thr.
Qed.

Lemma thr_try isValidMod st :
  throughout P Q st -> throughout P Q (getInfo_try req h isValidMod st).
Proof.
  intros H. unfold getInfo_try.
  assert (H1 : throughout P Q
            (if negb isValidMod
             then util_raiseFlag_broken "FILE_ERROR_NAME_INVALID" st
             else st)) by (destruct (negb _); thr).
  destruct (negb (h_open h)).
  { destruct (negb isValidMod); thr. }
  destruct (h_exists h "careerSavegame.xml"); [thr|].
  destruct (negb isValidMod) eqn:Ev; [exact H1|].
  destruct (negb (h_exists h "modDesc.xml")); [thr|].
  apply thr_icon, thr_parseModDesc, thr_fileCounts, H1.
Qed.

Lemma thr_l10n_step st : throughout P Q st -> throughout P Q (doStep_l10n req st).
Proof. intros H. unfold doStep_l10n. thr. Qed.

(** the invariant of a whole run *)
Lemma thr_getInfo_state st :
  throughout P Q st -> throughout P Q (getInfo_state req h st).
Proof.
  intros H. unfold getInfo_state.
  pose proof (thr_validFileName H) as HV.
  destruct (doStep_validFileName st) as [isValidMod st1]; simpl in HV.
  apply thr_parsed, thr_l10n_step, thr_try, HV.
Qed.

End RegistryInvariant.

(** ** Frame properties of the registry *)

Lemma wf_reg_set c k v r : wf_registry r -> wf_registry (reg_set c k v r).
Proof.
  unfold wf_registry. intros (Hb & Hi & Hp).
  destruct c; simpl; repeat split; auto using ObjFacts.NoDup_keys_set.
Qed.

(** a write leaves the other keys and the other maps alone *)
Lemma reg_get_set c0 k0 c k v r :
  (c, k) <> (c0, k0) ->
  Obj.get k0 (reg_get c0 (reg_set c k v r)) = Obj.get k0 (reg_get c0 r).
Proof.
  intros N. destruct c, c0; simpl; try reflexivity;
    apply ObjFacts.get_set_other; congruence.
Qed.

Lemma wf_declaredFlags : wf_registry declaredFlags.
Proof.
  unfold wf_registry, declaredFlags; simpl.
  repeat split; repeat (constructor; [simpl; intuition discriminate|]); constructor.
Qed.

Lemma keeps_write c0 k0 x :
  ~ In (c0, k0) runWrites ->
  forall c k v r, In (c, k) runWrites -> keeps c0 k0 x r -> keeps c0 k0 x (reg_set c k v r).
Proof.
  intros N c k v r Hin [Hwf Hget]. split; [apply wf_reg_set, Hwf|].
  rewrite reg_get_set; [exact Hget|]. intros E. rewrite E in Hin. contradiction.
Qed.

Lemma keeps_constructor c0 k0 filePath isFolder size date md5Pre :
  (c0, k0) <> (Info, "INFO_NO_MULTIPLAYER_UNZIPPED") ->
  let P := keeps c0 k0 (Obj.get k0 (reg_get c0 declaredFlags)) in
  throughout P P (constructor filePath isFolder size date md5Pre).
Proof.
  intros N P.
  change (P (reg_set Info "INFO_NO_MULTIPLAYER_UNZIPPED" isFolder declaredFlags)
          /\ Forall P [declaredFlags]).
  split; [|constructor; [|constructor]].
  - split; [apply wf_reg_set, wf_declaredFlags|].
    apply reg_get_set. congruence.
  - split; [apply wf_declaredFlags | reflexivity].
Qed.

(** what the merged object binds a key to *)
Lemma get_mergedFlags k r :
  wf_registry r ->
  Obj.get k (mergedFlags r)
  = match Obj.get k (flag_info r) with
    | Some v => Some v
    | None => match Obj.get k (flag_problem r) with
              | Some v => Some v
              | None => Obj.get k (flag_broken r)
              end
    end.
Proof.
  intros (Hb & Hi & Hp). unfold mergedFlags.
  rewrite ObjFacts.get_spread_NoDup by exact Hi.
  rewrite ObjFacts.get_spread_NoDup by exact Hp. reflexivity.
Qed.

Lemma In_issues k st :
  wf_registry (flags st) ->
  (In k (issues (storable st)) <-> Obj.get k (mergedFlags (flags st)) = Some true).
Proof.
  intros Hwf. unfold storable; simpl.
  apply ObjFacts.trueNames_iff. destruct Hwf as (Hb & Hi & Hp).
  unfold mergedFlags. apply ObjFacts.NoDup_keys_spread, ObjFacts.NoDup_keys_spread, Hb.
Qed.

Lemma not_written c k : writtenb c k = false -> ~ In (c, k) runWrites.
Proof.
  intros E Hin. apply Bool.not_true_iff_false in E. apply E.
  apply existsb_exists. exists (c, k). split; [exact Hin|].
  destruct c; simpl; apply String.eqb_refl.
Qed.

(** every registry of a run is well formed, and a key the run does not
    write keeps its declared value in all of them *)
Lemma run_keeps req h c0 k0 filePath isFolder size date md5Pre :
  ~ In (c0, k0) runWrites ->
  (c0, k0) <> (Info, "INFO_NO_MULTIPLAYER_UNZIPPED") ->
  let P := keeps c0 k0 (Obj.get k0 (reg_get c0 declaredFlags)) in
  throughout P P
    (getInfo_state req h (constructor filePath isFolder size date md5Pre)).
Proof.
  intros N1 N2 P. apply thr_getInfo_state.
  - apply keeps_write, N1.
  - auto.
  - apply keeps_constructor, N2.
Qed.

(** the folder flag, from the constructor on *)
Lemma run_keeps_folder req h filePath isFolder size date md5Pre :
  keeps Info "INFO_NO_MULTIPLAYER_UNZIPPED" (Some isFolder)
    (flags (getInfo_state req h (constructor filePath isFolder size date md5Pre))).
Proof.
  refine (proj1 (@thr_getInfo_state
                   (keeps Info "INFO_NO_MULTIPLAYER_UNZIPPED" (Some isFolder))
                   (fun _ => True) _ _ req h _ _)).
  - apply keeps_write, not_written. reflexivity.
  - auto.
  - split.
    + split; [apply wf_reg_set, wf_declaredFlags | reflexivity].
    + repeat constructor.
Qed.

Lemma throughout_registries P st :
  throughout P P st -> Forall P (registries st).
Proof.
  intros [H1 H2]. unfold registries. apply Forall_rev. constructor; assumption.
Qed.

(** ** Flags that are declared and never raised *)

Lemma unwritten_problem_neverRaised req h k filePath isFolder size date md5Pre :
  Obj.get k (flag_problem declaredFlags) = Some false ->
  Obj.get k (flag_info declaredFlags) = None ->
  writtenb Problem k = false ->
  writtenb Info k = false ->
  k <> "INFO_NO_MULTIPLAYER_UNZIPPED" ->
  neverRaised k
    (getInfo_state req h (constructor filePath isFolder size date md5Pre)).
Proof.
  intros Dp Di Wp Wi Nk.
  set (st := getInfo_state req h (constructor filePath isFolder size date md5Pre)).
  assert (Hp' : throughout (keeps Problem k (Some false))
                           (keeps Problem k (Some false)) st).
  { rewrite <- Dp.
    apply (@run_keeps req h Problem k filePath isFolder size date md5Pre);
      [apply not_written, Wp | congruence]. }
  assert (Hi' : throughout (keeps Info k None) (keeps Info k None) st).
  { rewrite <- Di.
    apply (@run_keeps req h Info k filePath isFolder size date md5Pre);
      [apply not_written, Wi | congruence]. }
  split.
  - apply throughout_registries in Hp'.
    eapply Forall_impl; [|exact Hp']. intros r [_ G]. exact G.
  - destruct Hp' as [[Hwf Gp] _]. destruct Hi' as [[_ Gi] _].
    rewrite In_issues by exact Hwf. rewrite get_mergedFlags by exact Hwf.
    simpl in Gp, Gi. rewrite Gi, Gp. discriminate.
Qed.

(** C9: the problem flags MOD_ERROR_MODDESC_DAMAGED_RECOVERABLE and
    PREF_PNG_TEXTURE are declared and never written: whatever the artifact,
    both are [false] in every registry the run goes through, and neither
    name is in the issues of the report. *)
Theorem C9_declared_flags_never_raised :
  forall req h filePath isFolder size date md5Pre,
    let st := getInfo_state req h
                (constructor filePath isFolder size date md5Pre) in
    neverRaised "MOD_ERROR_MODDESC_DAMAGED_RECOVERABLE" st /\
    neverRaised "PREF_PNG_TEXTURE" st.
Proof.
  intros. split; apply unwritten_problem_neverRaised;
    solve [reflexivity | discriminate].
Qed.

(** ** The folder flag *)

(** C10: the constructor binds INFO_NO_MULTIPLAYER_UNZIPPED of the info map
    to [isFolder], and the name is in the issues of the report exactly when
    the artifact is a folder, whatever the archive and its descriptor
    hold. *)
Theorem C10_folder_flag_reported_iff_folder :
  forall req h filePath isFolder size date md5Pre,
    let st0 := constructor filePath isFolder size date md5Pre in
    Obj.get "INFO_NO_MULTIPLAYER_UNZIPPED" (flag_info (flags st0)) = Some isFolder /\
    (In "INFO_NO_MULTIPLAYER_UNZIPPED" (issues (getInfo req h st0))
     <-> isFolder = true).
Proof.
  intros req h filePath folder size date md5Pre st0. split; [reflexivity|].
  destruct (run_keeps_folder req h filePath folder size date md5Pre) as [Hwf G].
  unfold getInfo. rewrite In_issues by exact Hwf.
  rewrite get_mergedFlags by exact Hwf. simpl in G. fold st0 in G. rewrite G.
  split; congruence.
Qed.

(** ** Usability *)

Lemma anyTrue_false_iff (m : Flags) :
  anyTrue m = false <-> Forall (fun kv => snd kv = false) m.
Proof.
  unfold anyTrue. induction m as [|[k v] m IH]; simpl.
  - split; auto.
  - destruct v; simpl.
    + split; [discriminate | intros H; inversion H; discriminate].
    + rewrite IH. split; [auto | intros H; inversion H; assumption].
Qed.

(** *** When a run marks the artifact as a save-game *)

Lemma tick_count_fileDetail type st :
  fileDetail (util_tick_count type st) = fileDetail st.
Proof. unfold util_tick_count. destruct (Obj.get _ _); reflexivity. Qed.

Lemma checkLUA_fileDetail req h fileName st :
  fileDetail (util_checkLUA req h fileName st) = fileDetail st.
Proof.
  unfold util_checkLUA. destruct (has _ _); [reflexivity|].
  destruct (h_readText _ _); [|reflexivity].
  destruct (Str.includes _ _); [reflexivity|].
  destruct (Str.includes _ _); reflexivity.
Qed.

Lemma sg_size_check size type fileName flagPart st :
  isSaveGame (fileDetail (util_size_check size type fileName flagPart st))
  = isSaveGame (fileDetail st).
Proof.
  unfold util_size_check. destruct (Obj.get type fileSizeMap); [|reflexivity].
  destruct (_ >? _); reflexivity.
Qed.

Lemma sg_countFile req h suffix fileName size fullName st :
  isSaveGame (fileDetail (util_countFile req h suffix fileName size fullName st))
  = isSaveGame (fileDetail st).
Proof.
  unfold util_countFile, util_countUnknown.
  set (s := Str.substring1 suffix).
  destruct (negb (has knownGood s)).
  { destruct (_ || _); reflexivity. }
  destruct (String.eqb s "png").
  { destruct (negb _); simpl; rewrite tick_count_fileDetail; reflexivity. }
  destruct (String.eqb s "dds"); [rewrite sg_size_check; reflexivity|].
  destruct (String.eqb s "i3d"); [reflexivity|].
  destruct (String.eqb s "lua"); [rewrite checkLUA_fileDetail; reflexivity|].
  destruct (String.eqb s "cache"); [rewrite sg_size_check; reflexivity|].
  destruct (String.eqb s "gdm" || String.eqb s "xml" || String.eqb s "shapes");
    [rewrite sg_size_check; reflexivity|].
  destruct (_ || _); [rewrite tick_count_fileDetail|]; reflexivity.
Qed.

Lemma sg_walk req h files st :
  isSaveGame (fileDetail (fileCounts_walk req h files st))
  = isSaveGame (fileDetail st).
Proof.
  unfold fileCounts_walk. revert st.
  induction files as [|f files IH]; intros st; simpl; [reflexivity|].
  rewrite IH. unfold fileCounts_entry.
  destruct (fi_isFolder _); [|rewrite sg_countFile];
    destruct (Str.includes f " "); reflexivity.
Qed.

Lemma sg_parseModDesc h st :
  isSaveGame (fileDetail (doStep_parseModDesc h st)) = isSaveGame (fileDetail st).
Proof.
  unfold doStep_parseModDesc.
  destruct (modDescParsed (with_modDescParsed (h_readXML h) st)) as [| |[|]| | | |];
    try reflexivity; destruct (has _ _); reflexivity.
Qed.

Lemma sg_icon req h st :
  isSaveGame (fileDetail (getInfo_icon req h st)) = isSaveGame (fileDetail st).
Proof.
  unfold getInfo_icon. destruct (iconFileName _); [|reflexivity].
  destruct (_ || _); [reflexivity|]. destruct (parseDDS _ _); reflexivity.
Qed.

Lemma sg_validFileName st :
  isSaveGame (fileDetail (snd (doStep_validFileName st)))
  = isSaveGame (fileDetail st).
Proof.
  unfold doStep_validFileName.
  destruct (negb (isFolder (fileDetail st)) && _).
  { destruct (_ || _); reflexivity. }
  destruct (re_startsDigit _); [destruct (re_unzip _); reflexivity|].
  destruct (negb (re_identifier _)); [|destruct (re_unzip _); reflexivity].
  destruct (re_copyName _); destruct (re_unzip _); reflexivity.
Qed.

(** a run marks the artifact as a save-game exactly when the archive opens
    and holds careerSavegame.xml *)
Lemma isSaveGame_iff_marker req h st0 :
  isSaveGame (fileDetail st0) = false ->
  isSaveGame (fileDetail (getInfo_state req h st0))
  = h_open h && h_exists h "careerSavegame.xml".
Proof.
  intros H0. unfold getInfo_state.
  pose proof (sg_validFileName st0) as HV. rewrite H0 in HV.
  destruct (doStep_validFileName st0) as [valid st1]. simpl in HV.
  change (isSaveGame (fileDetail (getInfo_try req h valid st1))
          = h_open h && h_exists h "careerSavegame.xml").
  unfold getInfo_try.
  destruct (h_open h); simpl.
  - destruct (h_exists h "careerSavegame.xml"); [reflexivity|].
    destruct valid; simpl; [|exact HV].
    destruct (h_exists h "modDesc.xml"); simpl; [|exact HV].
    rewrite sg_icon, sg_parseModDesc. unfold doStep_fileCounts. simpl.
    rewrite sg_walk. exact HV.
  - destruct valid; exact HV.
Qed.

(** C1, as stated, fails on a save-game: the run on an archive that holds
    careerSavegame.xml ends with every broken flag down and with
    canNotUse = true. *)
Lemma C1_savegame_counterexample :
  ~ usable_as_stated Examples.req SaveGameExample.h SaveGameExample.st0.
Proof.
  intros [_ H]. specialize (H eq_refl). vm_compute in H. discriminate.
Qed.

(** C1, amended: a run marks the artifact as a save-game exactly when the
    archive opens and holds careerSavegame.xml; on a run that did not,
    canNotUse is false exactly when every broken flag is false; on a run
    that did, canNotUse is true whatever the flags are. *)
Theorem C1_canNotUse_amended :
  forall req h filePath isFolder size date md5Pre,
    let st0 := constructor filePath isFolder size date md5Pre in
    let st := getInfo_state req h st0 in
    let r := getInfo req h st0 in
    isSaveGame (rec_fileDetail r) = h_open h && h_exists h "careerSavegame.xml" /\
    (isSaveGame (rec_fileDetail r) = false ->
     (canNotUse r = false
      <-> Forall (fun kv => snd kv = false) (flag_broken (flags st)))) /\
    (isSaveGame (rec_fileDetail r) = true -> canNotUse r = true).
Proof.
  intros req h filePath folder size date md5Pre st0 st r.
  subst r. unfold getInfo, storable. fold st. simpl.
  unfold doStep_canUse. split; [|split].
  - apply isSaveGame_iff_marker. reflexivity.
  - intros E; rewrite E. apply anyTrue_false_iff.
  - intros E; rewrite E. reflexivity.
Qed.

Lemma C1_canNotUse_amended_witness :
  canNotUse (getInfo Examples.req SaveGameExample.h SaveGameExample.st0) = true /\
  canNotUse (getInfo Examples.req ThreeTxtExample.h ThreeTxtExample.st0) = false.
Proof.
  split.
  - apply (proj2 (proj2 (C1_canNotUse_amended Examples.req SaveGameExample.h
                           "/mods/savegame1.zip" false 10 20 (Some "abc")))).
    reflexivity.
  - apply (proj1 (proj2 (C1_canNotUse_amended Examples.req ThreeTxtExample.h
                           "/mods/FS22_MyMod.zip" false 10 20 None)));
      [reflexivity|].
    vm_compute. repeat constructor.
Defined.

(** ** A missing descriptor *)

Lemma validFileName_true st :
  fst (doStep_validFileName st) = true ->
  snd (doStep_validFileName st) = st \/
  snd (doStep_validFileName st)
  = util_raiseFlag_broken "FILE_ERROR_LIKELY_ZIP_PACK" st.
Proof.
  unfold doStep_validFileName.
  destruct (negb (isFolder (fileDetail st)) && _).
  { destruct (_ || _); discriminate. }
  destruct (re_startsDigit _); [discriminate|].
  destruct (negb (re_identifier _)).
  { destruct (re_copyName _); discriminate. }
  destruct (re_unzip _); simpl; auto.
Qed.

(** C5, as stated, fails when the name is invalid: the run stops before it
    looks for modDesc.xml, the missing-descriptor flag stays down and the
    checksum given to the constructor stays. *)
Lemma C5_invalid_name_counterexample :
  ~ missing_desc_as_stated Examples.req NoDescExample.h NoDescExample.badName.
Proof.
  intros H. destruct (H eq_refl eq_refl eq_refl) as (_ & _ & H3).
  vm_compute in H3. discriminate.
Qed.

(** the run of an artifact whose name is valid and whose archive opens
    without save-game marker and without descriptor *)
Lemma getInfo_state_no_descriptor req h st0 :
  fst (doStep_validFileName st0) = true ->
  h_open h = true ->
  h_exists h "careerSavegame.xml" = false ->
  h_exists h "modDesc.xml" = false ->
  getInfo_state req h st0
  = with_modDescParsed JNull
      (doStep_l10n req
         (with_md5Sum None
            (util_raiseFlag_broken "NOT_MOD_MODDESC_MISSING"
               (snd (doStep_validFileName st0))))).
Proof.
  intros Hv Ho Hs Hd. unfold getInfo_state.
  destruct (doStep_validFileName st0) as [v st1]. simpl in Hv |- *. subst v.
  unfold getInfo_try. rewrite Ho, Hs, Hd. reflexivity.
Qed.

(** ** Directories in the listing *)

(** C6, as stated, fails on a directory whose name has a space: the space
    test comes before the directory test, so the name goes to spaceFiles
    and PERF_SPACE_IN_FILE is raised. *)
Lemma C6_directory_with_space_counterexample :
  ~ directory_skipped_as_stated Examples.req DirectoryExample.h
      DirectoryExample.st0 "my textures/".
Proof.
  intros H. destruct (H eq_refl) as [_ H2]. vm_compute in H2. discriminate.
Qed.

(** C6, amended: a directory entry goes to no classification list other
    than spaceFiles and raises no flag other than PERF_SPACE_IN_FILE; it
    goes to spaceFiles, and that flag is raised, exactly when its name
    contains a space; quotas and descriptor data are not touched. *)
Theorem C6_directory_entry_amended :
  forall req h st checkFile,
    fi_isFolder (h_fileInfo h checkFile) = true ->
    let st' := fileCounts_entry req h st checkFile in
    let f := fileDetail st in
    let f' := fileDetail st' in
    (extraFiles f' = extraFiles f /\ i3dFiles f' = i3dFiles f /\
     imageDDS f' = imageDDS f /\ imageNonDDS f' = imageNonDDS f /\
     pngTexture f' = pngTexture f /\ tooBigFiles f' = tooBigFiles f) /\
    maxFilesType st' = maxFilesType st /\
    modDesc st' = modDesc st /\
    spaceFiles f' = (if Str.includes checkFile " "
                     then spaceFiles f ++ [checkFile] else spaceFiles f) /\
    flags st' = (if Str.includes checkFile " "
                 then reg_set Problem "PERF_SPACE_IN_FILE" true (flags st)
                 else flags st).
Proof.
  intros req h st checkFile Hdir st' f f'. subst st' f f'.
  unfold fileCounts_entry. rewrite Hdir.
  destruct (Str.includes checkFile " "); simpl; repeat split; reflexivity.
Qed.

Lemma C6_directory_entry_amended_witness :
  spaceFiles (fileDetail (fileCounts_entry Examples.req DirectoryExample.h
                            DirectoryExample.st0 "my textures/"))
  = ["my textures/"%string] /\
  tooBigFiles (fileDetail (fileCounts_entry Examples.req DirectoryExample.h
                             DirectoryExample.st0 "my textures/"))
  = [].
Proof.
  destruct (C6_directory_entry_amended Examples.req DirectoryExample.h
              DirectoryExample.st0 "my textures/" eq_refl)
    as ((_ & _ & _ & _ & _ & Hbig) & _ & _ & Hspace & _).
  split; [exact Hspace | exact Hbig].
Defined.

(** ** Oversized files *)












(** ** Icon file name *)

Lemma has_In l s : has l s = true <-> In s l.
Proof.
  unfold has. rewrite existsb_exists. split.
  - intros [x [Hin E]]. apply String.eqb_eq in E. subst x. exact Hin.
  - intros Hin. exists s. split; [exact Hin | apply String.eqb_refl].
Qed.

(** the descriptor step on a descriptor that parsed: the problem map and
    the icon file name it leaves *)
Lemma parseModDesc_tree h st props :
  h_readXML_modDesc h = Some (Some props) ->
  let name := ddsIconName (declaredIcon (JObj props)) in
  let piracy := Obj.set "INFO_MIGHT_BE_PIRACY" (hasOwn (JObj props) "productid")
                        (flag_problem (flags st)) in
  flag_problem (flags (doStep_parseModDesc h st))
  = (if has (imageDDS (fileDetail st)) name
     then piracy else Obj.set "MOD_ERROR_NO_MOD_ICON" true piracy) /\
  iconFileName (modDesc (doStep_parseModDesc h st))
  = (if has (imageDDS (fileDetail st)) name
     then Some name else iconFileName (modDesc st)).
Proof.
  intros Hx name piracy. subst name piracy.
  unfold doStep_parseModDesc, h_readXML. rewrite Hx.
  cbn [modDescParsed fileDetail with_modDescParsed with_modDesc assignFlag].
  destruct (has (imageDDS (fileDetail st)) _); split; reflexivity.
Qed.

Lemma declaresIcon_declaredIcon props s :
  declaresIcon props s -> declaredIcon (JObj props) = s.
Proof.
  unfold declaredIcon, JS.get.
  intros [E|[rest E]]; rewrite E; reflexivity.
Qed.

(** C8: when the descriptor declares an icon file name (its iconfilename
    entry is a text, or a list whose first element is a text) that does
    not end in .dds, the last four characters of that name are replaced
    with .dds; if the DDS list holds the resulting name, the descriptor
    step stores it as icon file name and leaves MOD_ERROR_NO_MOD_ICON as it
    was; otherwise the step raises MOD_ERROR_NO_MOD_ICON and leaves the
    icon file name as it was. *)
Theorem C8_icon_resolution :
  forall h st props declared,
    h_readXML_modDesc h = Some (Some props) ->
    declaresIcon props declared ->
    Str.endsWith declared ".dds" = false ->
    let resolved :=
      (substring 0 (String.length declared - 4) declared ++ ".dds")%string in
    let st' := doStep_parseModDesc h st in
    (In resolved (imageDDS (fileDetail st)) ->
     iconFileName (modDesc st') = Some resolved /\
     Obj.get "MOD_ERROR_NO_MOD_ICON" (flag_problem (flags st'))
     = Obj.get "MOD_ERROR_NO_MOD_ICON" (flag_problem (flags st))) /\
    (~ In resolved (imageDDS (fileDetail st)) ->
     Obj.get "MOD_ERROR_NO_MOD_ICON" (flag_problem (flags st')) = Some true /\
     iconFileName (modDesc st') = iconFileName (modDesc st)).
Proof.
  intros h st props declared Hx Hd Hends resolved st'.
  pose proof (declaresIcon_declaredIcon Hd) as Ed.
  assert (Er : ddsIconName (declaredIcon (JObj props)) = resolved).
  { rewrite Ed. unfold ddsIconName. rewrite Hends. reflexivity. }
  destruct (parseModDesc_tree h st Hx) as [Hf Hi].
  rewrite Er in Hf, Hi. fold st' in Hf, Hi.
  rewrite Hf, Hi. split; intros Hin.
  - apply has_In in Hin. rewrite Hin. split; [reflexivity|].
    apply ObjFacts.get_set_other. discriminate.
  - destruct (has (imageDDS (fileDetail st)) resolved) eqn:E.
    + apply has_In in E. contradiction.
    + split; [apply ObjFacts.get_set_same | reflexivity].
Qed.

Lemma C8_icon_resolution_witness :
  iconFileName (modDesc (doStep_parseModDesc IconExample.h IconExample.classified))
  = Some "icon.dds"%string /\
  Obj.get "MOD_ERROR_NO_MOD_ICON"
    (flag_problem (flags (doStep_parseModDesc IconExample.h IconExample.classified)))
  = Some false.
Proof.
  apply (proj1 (C8_icon_resolution IconExample.h IconExample.classified
                  (props := Examples.goodDesc) (declared := "icon.png")
                  eq_refl (or_introl eq_refl) eq_refl)).
  simpl. auto.
Defined.

(** ** Quotas *)

Lemma tick_count_other type k st :
  type <> k ->
  Obj.get k (maxFilesType (util_tick_count type st)) = Obj.get k (maxFilesType st).
Proof.
  intros N. unfold util_tick_count.
  destruct (Obj.get type (maxFilesType st)); [|reflexivity].
  simpl. apply ObjFacts.get_set_other, N.
Qed.

Lemma size_check_quota size type fileName flagPart st :
  maxFilesType (util_size_check size type fileName flagPart st) = maxFilesType st.
Proof.
  unfold util_size_check. destruct (Obj.get type fileSizeMap); [|reflexivity].
  destruct (_ >? _); reflexivity.
Qed.

Lemma checkLUA_quota req h fileName st :
  maxFilesType (util_checkLUA req h fileName st) = maxFilesType st.
Proof.
  unfold util_checkLUA. destruct (has _ _); [reflexivity|].
  destruct (h_readText _ _); [|reflexivity].
  destruct (Str.includes _ _); [reflexivity|].
  destruct (Str.includes _ _); reflexivity.
Qed.

(** the only quota a file can use up is the one of png *)
Lemma countFile_quota req h suffix fileName size fullName st k :
  k <> "png"%string -> k <> ".grle"%string -> k <> ".pdf"%string -> k <> ".txt"%string ->
  Obj.get k (maxFilesType (util_countFile req h suffix fileName size fullName st))
  = Obj.get k (maxFilesType st).
Proof.
  intros N1 N2 N3 N4. unfold util_countFile, util_countUnknown.
  set (s := Str.substring1 suffix).
  destruct (negb (has knownGood s)).
  { destruct (_ || _); reflexivity. }
  destruct (String.eqb s "png").
  { destruct (negb _); simpl; apply tick_count_other; congruence. }
  destruct (String.eqb s "dds"); [rewrite size_check_quota; reflexivity|].
  destruct (String.eqb s "i3d"); [reflexivity|].
  destruct (String.eqb s "lua"); [rewrite checkLUA_quota; reflexivity|].
  destruct (String.eqb s "cache"); [rewrite size_check_quota; reflexivity|].
  destruct (String.eqb s "gdm" || String.eqb s "xml" || String.eqb s "shapes");
    [rewrite size_check_quota; reflexivity|].
  destruct (String.eqb s ".grle") eqn:E1.
  { apply String.eqb_eq in E1. simpl. apply tick_count_other. congruence. }
  destruct (String.eqb s ".pdf") eqn:E2.
  { apply String.eqb_eq in E2. simpl. apply tick_count_other. congruence. }
  destruct (String.eqb s ".txt") eqn:E3.
  { apply String.eqb_eq in E3. simpl. apply tick_count_other. congruence. }
  reflexivity.
Qed.

Lemma walk_quota req h files st k :
  k <> "png"%string -> k <> ".grle"%string -> k <> ".pdf"%string -> k <> ".txt"%string ->
  Obj.get k (maxFilesType (fileCounts_walk req h files st))
  = Obj.get k (maxFilesType st).
Proof.
  intros N1 N2 N3 N4. unfold fileCounts_walk. revert st.
  induction files as [|f files IH]; intros st; simpl; [reflexivity|].
  rewrite IH. unfold fileCounts_entry.
  destruct (fi_isFolder _).
  - destruct (Str.includes f " "); reflexivity.
  - rewrite countFile_quota by assumption.
    destruct (Str.includes f " "); reflexivity.
Qed.


(** C4 does not hold of the code: the walk leaves the quotas of grle, pdf
    and txt where they were, whatever the listing (the case labels of these
    three types carry a dot that the tag has lost); the run on an archive
    with three txt files ends with the txt quota at 2, PERF_TXT_TOO_MANY
    false, and no such issue in the report. *)
Theorem C4_txt_quota_is_never_spent :
  (forall req h files st,
      let st' := fileCounts_walk req h files st in
      Obj.get "grle" (maxFilesType st') = Obj.get "grle" (maxFilesType st) /\
      Obj.get "pdf" (maxFilesType st') = Obj.get "pdf" (maxFilesType st) /\
      Obj.get "txt" (maxFilesType st') = Obj.get "txt" (maxFilesType st)) /\
  (let st := getInfo_state Examples.req ThreeTxtExample.h ThreeTxtExample.st0 in
   map typeOf (h_list ThreeTxtExample.h)
   = ["xml"; "dds"; "txt"; "txt"; "txt"]%string /\
   Obj.get "txt" (maxFilesType st) = Some 2 /\
   Obj.get "PERF_TXT_TOO_MANY" (flag_problem (flags st)) = Some false /\
   issues (storable st) = []).
Proof.
  split.
  - intros req h files st st'. subst st'.
    repeat split; apply walk_quota; discriminate.
  - vm_compute. repeat split; reflexivity.
Qed.

(** ** Where the localization flag lands *)

(** the localization step binds PERF_L10N_NOT_SET in the info map *)
Lemma l10n_info_binding req h st0 :
  exists v,
    Obj.get "PERF_L10N_NOT_SET" (flag_info (flags (getInfo_state req h st0)))
    = Some v.
Proof.
  unfold getInfo_state. destruct (doStep_validFileName st0) as [valid st1].
  eexists. simpl. apply ObjFacts.get_set_same.
Qed.

(** the problem map keeps PERF_L10N_NOT_SET at [false] all along *)
Lemma l10n_problem_flag_stays_false req h filePath isFolder size date md5Pre :
  Forall (fun r => Obj.get "PERF_L10N_NOT_SET" (flag_problem r) = Some false)
    (registries
       (getInfo_state req h (constructor filePath isFolder size date md5Pre))).
Proof.
  assert (N : ~ In (Problem, "PERF_L10N_NOT_SET"%string) runWrites)
    by (apply not_written; reflexivity).
  assert (K := @run_keeps req h Problem "PERF_L10N_NOT_SET" filePath isFolder
                 size date md5Pre N ltac:(discriminate)).
  apply throughout_registries in K.
  eapply Forall_impl; [|exact K]. intros r [_ G]. exact G.
Qed.

(** C2 does not hold of the code.  Whatever the artifact, the run ends with
    PERF_L10N_NOT_SET bound in the problem map and in the info map: the
    localization step writes the flag of the problem map into the info map.
    And on an archive with a .dat file and a descriptor without product
    id, INFO_MIGHT_BE_PIRACY is raised by the classifier and set back to
    false by the descriptor step. *)
Theorem C2_name_in_two_maps_and_flag_cleared :
  (forall req h filePath isFolder size date md5Pre,
      let st := getInfo_state req h
                  (constructor filePath isFolder size date md5Pre) in
      Obj.get "PERF_L10N_NOT_SET" (flag_problem (flags st)) = Some false /\
      exists v, Obj.get "PERF_L10N_NOT_SET" (flag_info (flags st)) = Some v) /\
  (let st := getInfo_state Examples.req PiracyExample.h PiracyExample.st0 in
   map (fun r => flagOf "INFO_MIGHT_BE_PIRACY" (flag_problem r)) (registries st)
   = [false; false; true; true; true; true; true; true; true; true; false; false]).
Proof.
  split.
  - intros req h filePath folder size date md5Pre st. split.
    + pose proof (l10n_problem_flag_stays_false req h filePath folder size
                    date md5Pre) as F.
      fold st in F. unfold registries in F. apply Forall_rev in F.
      rewrite rev_involutive in F. inversion F; assumption.
    + apply l10n_info_binding.
  - vm_compute. reflexivity.
Qed.

(** C3 does not hold of the code: the localization step never raises the
    flag of the problem map, which stays false in every registry of every
    run; what it writes is an entry of the same name in the info map.  On a
    mod whose only fault is a missing title, the report lists
    PERF_L10N_NOT_SET among its issues and has no problem badge. *)
Theorem C3_l10n_flag_is_not_a_problem_flag :
  (forall req h filePath isFolder size date md5Pre,
      Forall (fun r => Obj.get "PERF_L10N_NOT_SET" (flag_problem r) = Some false)
        (registries
           (getInfo_state req h
              (constructor filePath isFolder size date md5Pre)))) /\
  (let r := getInfo Examples.req L10nExample.h L10nExample.st0 in
   rec_l10n r = Some (JStr "--", JStr "") /\
   isSaveGame (rec_fileDetail r) = false /\
   issues r = ["PERF_L10N_NOT_SET"%string] /\
   badgeArray r = []).
Proof.
  split.
  - intros. apply l10n_problem_flag_stays_false.
  - vm_compute. repeat split; reflexivity.
Qed.

(** * Further properties of the pipeline *)

(** ** What the walk collects *)

















(** ** What the walk leaves alone *)

(** An observation of the instance that no write of the walk changes is
    the same after the walk: the walk writes problem flags, the info flag
    MALICIOUS_CODE, the classification lists, the quotas and the script
    count. *)
Section WalkFrame.

Variable A : Type.
Variable obs : State -> A.
Hypothesis obs_problem : forall k v st, obs (assignFlag Problem k v st) = obs st.
Hypothesis obs_info :
  forall st, obs (assignFlag Info "MALICIOUS_CODE" true st) = obs st.
Hypothesis obs_lists :
  forall f st, blankLists f = blankLists (fileDetail st) ->
               obs (with_fileDetail f st) = obs st.
Hypothesis obs_quota : forall q st, obs (with_maxFilesType q st) = obs st.
Hypothesis obs_scripts :
  forall z st, obs (with_modDesc (md_scriptFiles z (modDesc st)) st) = obs st.

Ltac obs_step :=
  unfold util_raiseFlag_problem, util_raiseFlag_info;
  repeat first
    [ reflexivity
    | rewrite obs_problem | rewrite obs_info | rewrite obs_quota
    | rewrite obs_scripts | rewrite obs_lists by reflexivity ].

Lemma obs_size_check size type fileName flagPart st :
  obs (util_size_check size type fileName flagPart st) = obs st.
Proof.
  unfold util_size_check. destruct (Obj.get type fileSizeMap); [|reflexivity].
  destruct (_ >? _); obs_step.
Qed.

Lemma obs_tick_count type st : obs (util_tick_count type st) = obs st.
Proof. unfold util_tick_count. destruct (Obj.get _ _); obs_step. Qed.

Lemma obs_checkLUA req h fileName st :
  obs (util_checkLUA req h fileName st) = obs st.
Proof.
  unfold util_checkLUA. destruct (has _ _); [reflexivity|].
  destruct (h_readText _ _); [|reflexivity].
  destruct (Str.includes _ _); [obs_step|].
  destruct (Str.includes _ _); obs_step.
Qed.

Lemma obs_countFile req h suffix fileName size fullName st :
  obs (util_countFile req h suffix fileName size fullName st) = obs st.
Proof.
  unfold util_countFile, util_countUnknown.
  set (s := Str.substring1 suffix).
  destruct (negb (has knownGood s)).
  { destruct (_ || _); obs_step. }
  destruct (String.eqb s "png").
  { destruct (negb _); obs_step; apply obs_tick_count. }
  destruct (String.eqb s "dds"); [rewrite obs_size_check; obs_step|].
  destruct (String.eqb s "i3d"); [obs_step|].
  destruct (String.eqb s "lua"); [rewrite obs_checkLUA; obs_step|].
  destruct (String.eqb s "cache"); [apply obs_size_check|].
  destruct (String.eqb s "gdm" || String.eqb s "xml" || String.eqb s "shapes");
    [apply obs_size_check|].
  destruct (_ || _); [apply obs_tick_count | reflexivity].
Qed.

Lemma obs_entry req h st f : obs (fileCounts_entry req h st f) = obs st.
Proof.
  unfold fileCounts_entry.
  destruct (fi_isFolder _); [|rewrite obs_countFile];
    destruct (Str.includes f " "); obs_step.
Qed.

Lemma obs_walk req h files st : obs (fileCounts_walk req h files st) = obs st.
Proof.
  unfold fileCounts_walk. revert st.
  induction files as [|f files IH]; intros st; simpl; [reflexivity|].
  rewrite IH. apply obs_entry.
Qed.

Lemma obs_fileCounts req h st : obs (doStep_fileCounts req h st) = obs st.
Proof. unfold doStep_fileCounts. obs_step. apply obs_walk. Qed.

End WalkFrame.

(** ** The shape of a run *)

Lemma getInfo_state_eq req h st0 :
  getInfo_state req h st0
  = with_modDescParsed JNull (doStep_l10n req (beforeL10n req h st0)).
Proof.
  unfold getInfo_state, beforeL10n.
  destruct (doStep_validFileName st0); reflexivity.
Qed.

Lemma beforeL10n_walked req h st0 :
  reachesWalk h st0 = true ->
  beforeL10n req h st0
  = getInfo_icon req h
      (doStep_parseModDesc h
         (doStep_fileCounts req h (snd (doStep_validFileName st0)))).
Proof.
  unfold reachesWalk, beforeL10n, getInfo_try. intros R.
  apply Bool.andb_true_iff in R. destruct R as [R Hd].
  apply Bool.andb_true_iff in R. destruct R as [R Hm].
  apply Bool.andb_true_iff in R. destruct R as [Hv Ho].
  rewrite Hv, Ho, Hd. apply Bool.negb_true_iff in Hm. rewrite Hm. reflexivity.
Qed.

(** what the name validator leaves alone *)
Lemma validFileName_frame st :
  let st1 := snd (doStep_validFileName st) in
  flag_info (flags st1) = flag_info (flags st) /\
  flag_problem (flags st1) = flag_problem (flags st) /\
  modDesc st1 = modDesc st /\
  md5Sum st1 = md5Sum st /\
  maxFilesType st1 = maxFilesType st /\
  modDescParsed st1 = modDescParsed st /\
  fd_copyName None (fileDetail st1) = fd_copyName None (fileDetail st).
Proof.
  unfold doStep_validFileName.
  destruct (negb (isFolder (fileDetail st)) && _).
  { destruct (_ || _); repeat split; reflexivity. }
  destruct (re_startsDigit _);
    [destruct (re_unzip _); repeat split; reflexivity|].
  destruct (negb (re_identifier _));
    [|destruct (re_unzip _); repeat split; reflexivity].
  destruct (re_copyName _); destruct (re_unzip _); repeat split; reflexivity.
Qed.

(** what the descriptor step leaves alone *)
Lemma parseModDesc_frame h st :
  let st' := doStep_parseModDesc h st in
  fileDetail st' = fileDetail st /\
  md5Sum st' = md5Sum st /\
  maxFilesType st' = maxFilesType st /\
  flag_info (flags st') = flag_info (flags st) /\
  scriptFiles (modDesc st') = scriptFiles (modDesc st) /\
  iconImageCache (modDesc st') = iconImageCache (modDesc st).
Proof.
  unfold doStep_parseModDesc.
  destruct (modDescParsed (with_modDescParsed (h_readXML h) st)) as [| |[|]| | | |];
    try (repeat split; reflexivity);
    destruct (has _ _); repeat split; reflexivity.
Qed.


Lemma parseModDesc_broken_other h st k :
  k <> "NOT_MOD_MODDESC_PARSE_ERROR"%string ->
  k <> "NOT_MOD_MODDESC_MISSING"%string ->
  k <> "NOT_MOD_MODDESC_VERSION_OLD_OR_MISSING"%string ->
  k <> "MOD_ERROR_NO_MOD_VERSION"%string ->
  Obj.get k (flag_broken (flags (doStep_parseModDesc h st)))
  = Obj.get k (flag_broken (flags st)).
Proof.
  intros N1 N2 N3 N4. unfold doStep_parseModDesc.
  destruct (modDescParsed (with_modDescParsed (h_readXML h) st)) as [| |[|]| | | |];
    try (destruct (has _ _));
    cbn [flags assignFlag util_raiseFlag_problem util_raiseFlag_broken
         with_modDesc with_modDescParsed reg_set flag_broken];
    rewrite ?ObjFacts.get_set_other by congruence; reflexivity.
Qed.

(** what the icon block leaves alone *)
Lemma icon_frame req h st :
  let st' := getInfo_icon req h st in
  fileDetail st' = fileDetail st /\
  md5Sum st' = md5Sum st /\
  maxFilesType st' = maxFilesType st /\
  modDescParsed st' = modDescParsed st /\
  flag_broken (flags st') = flag_broken (flags st) /\
  flag_info (flags st') = flag_info (flags st) /\
  md_iconImageCache None (modDesc st') = md_iconImageCache None (modDesc st).
Proof.
  unfold getInfo_icon. destruct (iconFileName _); [|repeat split; reflexivity].
  destruct (_ || _); [repeat split; reflexivity|].
  destruct (parseDDS _ _); repeat split; reflexivity.
Qed.



Lemma storable_fileDetail req h st0 :
  rec_fileDetail (getInfo req h st0) = fileDetail (beforeL10n req h st0).
Proof. unfold getInfo. rewrite getInfo_state_eq. reflexivity. Qed.

Lemma storable_modDesc req h st0 :
  rec_modDesc (getInfo req h st0) = modDesc (beforeL10n req h st0).
Proof. unfold getInfo. rewrite getInfo_state_eq. reflexivity. Qed.



(** ** Badges *)

(** each badge is in the badge array exactly when its test is [true] *)
Lemma badges_spec st :
  let sg := isSaveGame (fileDetail st) in
  (In "broken"%string (doStep_badges st)
   <-> (if sg then false else anyTrue (flag_broken (flags st))) = true) /\
  (In "folder"%string (doStep_badges st) <-> isFolder (fileDetail st) = true) /\
  (In "malware"%string (doStep_badges st)
   <-> flagOf "MALICIOUS_CODE" (flag_info (flags st)) = true) /\
  (In "noMP"%string (doStep_badges st)
   <-> negb (JS.truthy (multiPlayer (modDesc st))) && isFolder (fileDetail st) = true) /\
  (In "notmod"%string (doStep_badges st)
   <-> flagOf "NOT_MOD_MODDESC_MISSING" (flag_broken (flags st)) = true) /\
  (In "pconly"%string (doStep_badges st) <-> (scriptFiles (modDesc st) >? 0) = true) /\
  (In "problem"%string (doStep_badges st)
   <-> (if sg then false else anyTrue (flag_problem (flags st))) = true) /\
  (In "savegame"%string (doStep_badges st) <-> sg = true).
Proof.
  intros sg. subst sg. unfold doStep_badges.
  repeat split; intros H;
    first [ apply ObjFacts.trueNames_iff in H;
            [ cbn [Obj.get String.eqb Ascii.eqb Bool.eqb] in H;
              injection H as H; exact H
            | repeat (constructor; [simpl; intuition discriminate|]); constructor ]
          | apply ObjFacts.trueNames_iff;
            [ repeat (constructor; [simpl; intuition discriminate|]); constructor
            | cbn [Obj.get String.eqb Ascii.eqb Bool.eqb]; rewrite H; reflexivity ] ].
Qed.



(** ** Which flags the report lists *)

Lemma run_wf req h filePath isFolder size date md5Pre :
  wf_registry
    (flags (getInfo_state req h (constructor filePath isFolder size date md5Pre))).
Proof.
  assert (N : ~ In (Broken, "PERF_L10N_NOT_SET"%string) runWrites)
    by (apply not_written; reflexivity).
  destruct (@run_keeps req h Broken "PERF_L10N_NOT_SET" filePath isFolder size
              date md5Pre N ltac:(discriminate)) as [[W _] _].
  exact W.
Qed.


Lemma final_flag_broken req h st0 :
  flag_broken (flags (getInfo_state req h st0))
  = flag_broken (flags (beforeL10n req h st0)).
Proof. rewrite getInfo_state_eq. reflexivity. Qed.

Lemma final_flag_info req h st0 k :
  k <> "PERF_L10N_NOT_SET"%string ->
  Obj.get k (flag_info (flags (getInfo_state req h st0)))
  = Obj.get k (flag_info (flags (beforeL10n req h st0))).
Proof.
  intros N. rewrite getInfo_state_eq.
  cbn [flags with_modDescParsed doStep_l10n with_l10n assignFlag reg_set flag_info].
  apply ObjFacts.get_set_other. congruence.
Qed.


(** a name that neither the info map nor the problem map binds is listed
    exactly when the broken map binds it to [true] *)
Lemma issue_of_broken_flag req h k filePath isFolder size date md5Pre :
  writtenb Info k = false ->
  writtenb Problem k = false ->
  Obj.get k (flag_info declaredFlags) = None ->
  Obj.get k (flag_problem declaredFlags) = None ->
  let st0 := constructor filePath isFolder size date md5Pre in
  (In k (issues (getInfo req h st0))
   <-> Obj.get k (flag_broken (flags (beforeL10n req h st0))) = Some true).
Proof.
  intros Wi Wp Di Dp st0. unfold getInfo.
  pose proof (run_wf req h filePath isFolder size date md5Pre) as W.
  fold st0 in W. rewrite In_issues by exact W.
  rewrite get_mergedFlags by exact W.
  assert (Nk : (Info, k) <> (Info, "INFO_NO_MULTIPLAYER_UNZIPPED"%string)).
  { intros E. injection E as ->. discriminate Di. }
  destruct (@run_keeps req h Info k filePath isFolder size date md5Pre
              (not_written Wi) Nk) as [[_ Gi] _].
  destruct (@run_keeps req h Problem k filePath isFolder size date md5Pre
              (not_written Wp) ltac:(discriminate)) as [[_ Gp] _].
  fold st0 in Gi, Gp. cbn [reg_get] in Gi, Gp.
  rewrite Gi, Gp, Di, Dp, final_flag_broken. reflexivity.
Qed.


(** ** The script scan *)






(** a name that the info map binds is listed exactly when it binds it to
    [true] *)
Lemma issue_of_info_flag req h k v filePath isFolder size date md5Pre :
  let st0 := constructor filePath isFolder size date md5Pre in
  Obj.get k (flag_info (flags (getInfo_state req h st0))) = Some v ->
  (In k (issues (getInfo req h st0)) <-> v = true).
Proof.
  intros st0 G. unfold getInfo.
  pose proof (run_wf req h filePath isFolder size date md5Pre) as W.
  fold st0 in W. rewrite In_issues by exact W.
  rewrite get_mergedFlags by exact W. rewrite G.
  split; congruence.
Qed.



(** ** What the driver raises *)

Lemma validFileName_broken_other st k :
  k <> "FILE_ERROR_UNSUPPORTED_ARCHIVE"%string ->
  k <> "FILE_ERROR_GARBAGE_FILE"%string ->
  k <> "FILE_ERROR_LIKELY_ZIP_PACK"%string ->
  k <> "FILE_ERROR_NAME_STARTS_DIGIT"%string ->
  k <> "FILE_ERROR_LIKELY_COPY"%string ->
  Obj.get k (flag_broken (flags (snd (doStep_validFileName st))))
  = Obj.get k (flag_broken (flags st)).
Proof.
  intros N1 N2 N3 N4 N5. unfold doStep_validFileName.
  destruct (negb (isFolder (fileDetail st)) && _);
    [destruct (_ || _)
    |destruct (re_startsDigit _);
     [|destruct (negb (re_identifier _)); [destruct (re_copyName _)|]];
     destruct (re_unzip _)];
    cbn [snd flags assignFlag util_raiseFlag_broken with_fileDetail reg_set
         flag_broken];
    rewrite ?ObjFacts.get_set_other by congruence; reflexivity.
Qed.

Lemma fileCounts_flag_broken req h st :
  flag_broken (flags (doStep_fileCounts req h st)) = flag_broken (flags st).
Proof. apply (obs_fileCounts (fun s => flag_broken (flags s))); reflexivity. Qed.

Lemma fileCounts_md5Sum req h st :
  md5Sum (doStep_fileCounts req h st) = md5Sum st.
Proof. apply (obs_fileCounts md5Sum); reflexivity. Qed.

Lemma fileCounts_modDescParsed req h st :
  modDescParsed (doStep_fileCounts req h st) = modDescParsed st.
Proof. apply (obs_fileCounts modDescParsed); reflexivity. Qed.

(** a broken flag that only the driver writes, on a run that walks: as
    the name validator left it *)
Lemma walked_broken_other req h st0 k :
  reachesWalk h st0 = true ->
  k <> "NOT_MOD_MODDESC_PARSE_ERROR"%string ->
  k <> "NOT_MOD_MODDESC_MISSING"%string ->
  k <> "NOT_MOD_MODDESC_VERSION_OLD_OR_MISSING"%string ->
  k <> "MOD_ERROR_NO_MOD_VERSION"%string ->
  Obj.get k (flag_broken (flags (beforeL10n req h st0)))
  = Obj.get k (flag_broken (flags (snd (doStep_validFileName st0)))).
Proof.
  intros R N1 N2 N3 N4. rewrite (beforeL10n_walked req h st0 R).
  destruct (icon_frame req h
              (doStep_parseModDesc h
                 (doStep_fileCounts req h (snd (doStep_validFileName st0)))))
    as (_ & _ & _ & _ & Eb & _). cbv zeta in Eb. rewrite Eb.
  rewrite parseModDesc_broken_other by assumption.
  rewrite fileCounts_flag_broken. reflexivity.
Qed.

Lemma reachesWalk_true h st0 :
  reachesWalk h st0 = true
  <-> fst (doStep_validFileName st0) = true /\ h_open h = true /\
      h_exists h "careerSavegame.xml" = false /\ h_exists h "modDesc.xml" = true.
Proof.
  unfold reachesWalk. rewrite !Bool.andb_true_iff, Bool.negb_true_iff. tauto.
Qed.

(** the two flags the driver raises for the name and for the archive *)
Lemma driver_broken_flags req h filePath folder size date md5Pre :
  let st0 := constructor filePath folder size date md5Pre in
  let valid := fst (doStep_validFileName st0) in
  Obj.get "FILE_ERROR_NAME_INVALID" (flag_broken (flags (beforeL10n req h st0)))
  = Some (negb valid) /\
  Obj.get "FILE_ERROR_UNREADABLE_ZIP" (flag_broken (flags (beforeL10n req h st0)))
  = Some (valid && negb (h_open h)).
Proof.
  intros st0 valid.
  assert (V1 : Obj.get "FILE_ERROR_NAME_INVALID"
                 (flag_broken (flags (snd (doStep_validFileName st0)))) = Some false)
    by (rewrite validFileName_broken_other by discriminate; reflexivity).
  assert (V2 : Obj.get "FILE_ERROR_UNREADABLE_ZIP"
                 (flag_broken (flags (snd (doStep_validFileName st0)))) = Some false)
    by (rewrite validFileName_broken_other by discriminate; reflexivity).
  destruct (reachesWalk h st0) eqn:R.
  - rewrite !(walked_broken_other req h st0 R) by discriminate.
    apply reachesWalk_true in R. destruct R as (Hv & Ho & _).
    subst valid. rewrite Hv, Ho, V1, V2. split; reflexivity.
  - revert R. unfold reachesWalk, beforeL10n, getInfo_try. fold valid.
    destruct valid, (h_open h), (h_exists h "careerSavegame.xml"),
      (h_exists h "modDesc.xml"); cbn [negb andb]; try discriminate; intros _;
      cbn [flags assignFlag util_raiseFlag_broken util_raiseFlag_info
           with_fileDetail with_modDesc with_md5Sum reg_set flag_broken];
      rewrite ?ObjFacts.get_set_same;
      rewrite ?ObjFacts.get_set_other by discriminate;
      rewrite ?ObjFacts.get_set_same;
      rewrite ?V1, ?V2; split; reflexivity.
Qed.

(** X5: FILE_ERROR_NAME_INVALID is among the issues exactly when the name
    validator refuses the artifact, and such an artifact is always reported
    with canNotUse = true, whatever its archive holds. *)
Theorem X5_invalid_name_reported :
  forall req h filePath isFolder size date md5Pre,
    let st0 := constructor filePath isFolder size date md5Pre in
    let r := getInfo req h st0 in
    (In "FILE_ERROR_NAME_INVALID"%string (issues r)
     <-> fst (doStep_validFileName st0) = false) /\
    (fst (doStep_validFileName st0) = false -> canNotUse r = true).
Proof.
  intros req h filePath folder size date md5Pre st0 r.
  destruct (driver_broken_flags req h filePath folder size date md5Pre)
    as (G & _). cbv zeta in G. fold st0 in G.
  split.
  - subst r st0.
    rewrite (@issue_of_broken_flag req h "FILE_ERROR_NAME_INVALID" filePath
               folder size date md5Pre eq_refl eq_refl eq_refl eq_refl).
    rewrite G. destruct (fst (doStep_validFileName _)); cbn [negb];
      split; congruence.
  - intros Hv. rewrite Hv in G. subst r. unfold getInfo, storable.
    cbn [canNotUse]. unfold doStep_canUse.
    destruct (isSaveGame _); [reflexivity|].
    apply ObjFacts.anyTrue_iff. exists "FILE_ERROR_NAME_INVALID"%string.
    apply ObjFacts.get_In. rewrite final_flag_broken. exact G.
Qed.

(** X6: FILE_ERROR_UNREADABLE_ZIP is among the issues exactly when the
    name is valid and the archive does not open; when the name is invalid
    as well, the unreadable archive goes unreported. *)
Theorem X6_unreadable_archive_reported :
  forall req h filePath isFolder size date md5Pre,
    let st0 := constructor filePath isFolder size date md5Pre in
    In "FILE_ERROR_UNREADABLE_ZIP"%string (issues (getInfo req h st0))
    <-> fst (doStep_validFileName st0) = true /\ h_open h = false.
Proof.
  intros req h filePath folder size date md5Pre st0.
  destruct (driver_broken_flags req h filePath folder size date md5Pre)
    as (_ & G). cbv zeta in G. fold st0 in G. subst st0.
  rewrite (@issue_of_broken_flag req h "FILE_ERROR_UNREADABLE_ZIP" filePath
             folder size date md5Pre eq_refl eq_refl eq_refl eq_refl).
  rewrite G. destruct (fst (doStep_validFileName _)), (h_open h);
    cbn [negb andb]; split; try congruence; try tauto; intros [? ?]; congruence.
Qed.

(** ** A missing descriptor, whatever the name *)

(** C5, amended: for an artifact whose archive opens and holds neither a
    save-game marker nor modDesc.xml, canNotUse is true; the issues contain
    NOT_MOD_MODDESC_MISSING exactly when the name passes the name
    validator; md5Sum is null when the name passes, and keeps the value
    given to the constructor when it does not. *)
Theorem C5_missing_descriptor_amended :
  forall req h filePath isFolder size date md5Pre,
    let st0 := constructor filePath isFolder size date md5Pre in
    let valid := fst (doStep_validFileName st0) in
    let r := getInfo req h st0 in
    h_open h = true ->
    h_exists h "careerSavegame.xml" = false ->
    h_exists h "modDesc.xml" = false ->
    canNotUse r = true /\
    (In "NOT_MOD_MODDESC_MISSING"%string (issues r) <-> valid = true) /\
    rec_md5Sum r = (if valid then None else md5Pre).
Proof.
  intros req h filePath folder size date md5Pre st0 valid r Ho Hs Hd.
  set (k := "NOT_MOD_MODDESC_MISSING"%string).
  assert (V : Obj.get k (flag_broken (flags (snd (doStep_validFileName st0))))
              = Some false)
    by (rewrite validFileName_broken_other by discriminate; reflexivity).
  destruct (validFileName_frame st0) as (_ & _ & _ & F5 & _). cbv zeta in F5.
  assert (B : beforeL10n req h st0
              = if valid
                then with_md5Sum None
                       (util_raiseFlag_broken k (snd (doStep_validFileName st0)))
                else util_raiseFlag_broken "FILE_ERROR_NAME_INVALID"
                       (snd (doStep_validFileName st0))).
  { unfold beforeL10n, getInfo_try. fold valid. rewrite Ho, Hs, Hd.
    destruct valid; reflexivity. }
  assert (Gk : Obj.get k (flag_broken (flags (beforeL10n req h st0))) = Some valid).
  { rewrite B. destruct valid;
      cbn [flags assignFlag util_raiseFlag_broken with_md5Sum reg_set flag_broken].
    - apply ObjFacts.get_set_same.
    - rewrite ObjFacts.get_set_other by discriminate. exact V. }
  assert (Gt : exists k', Obj.get k' (flag_broken (flags (beforeL10n req h st0)))
                          = Some true).
  { rewrite B. destruct valid; eexists;
      cbn [flags assignFlag util_raiseFlag_broken with_md5Sum reg_set flag_broken];
      apply ObjFacts.get_set_same. }
  split; [|split].
  - subst r. unfold getInfo, storable. cbn [canNotUse]. unfold doStep_canUse.
    destruct (isSaveGame _); [reflexivity|].
    destruct Gt as [k' Gt]. apply ObjFacts.anyTrue_iff. exists k'.
    apply ObjFacts.get_In. rewrite final_flag_broken. exact Gt.
  - subst r st0.
    rewrite (@issue_of_broken_flag req h k filePath folder size date md5Pre
               eq_refl eq_refl eq_refl eq_refl).
    rewrite Gk. split; congruence.
  - subst r. unfold getInfo. rewrite getInfo_state_eq, B.
    destruct valid; [reflexivity|].
    cbn [storable rec_md5Sum md5Sum with_modDescParsed doStep_l10n with_l10n
         assignFlag util_raiseFlag_broken].
    exact F5.
Qed.

Lemma C5_missing_descriptor_amended_witness :
  (canNotUse (getInfo Examples.req NoDescExample.h NoDescExample.goodName) = true /\
   (In "NOT_MOD_MODDESC_MISSING"%string
       (issues (getInfo Examples.req NoDescExample.h NoDescExample.goodName))
    <-> true = true) /\
   rec_md5Sum (getInfo Examples.req NoDescExample.h NoDescExample.goodName) = None) /\
  (canNotUse (getInfo Examples.req NoDescExample.h NoDescExample.badName) = true /\
   (In "NOT_MOD_MODDESC_MISSING"%string
       (issues (getInfo Examples.req NoDescExample.h NoDescExample.badName))
    <-> false = true) /\
   rec_md5Sum (getInfo Examples.req NoDescExample.h NoDescExample.badName)
   = Some "abc"%string).
Proof.
  split.
  - exact (C5_missing_descriptor_amended Examples.req NoDescExample.h
             "/mods/FS22_MyMod.zip" false 10 20 (Some "abc"%string)
             eq_refl eq_refl eq_refl).
  - exact (C5_missing_descriptor_amended Examples.req NoDescExample.h
             "/mods/My Mod.zip" false 10 20 (Some "abc"%string)
             eq_refl eq_refl eq_refl).
Defined.

(** ** Save-games, checksum and localization over a whole run *)

Lemma fileCounts_info_other req h st k :
  k <> "MALICIOUS_CODE"%string ->
  Obj.get k (flag_info (flags (doStep_fileCounts req h st)))
  = Obj.get k (flag_info (flags st)).
Proof.
  intros N.
  apply (obs_fileCounts (fun s => Obj.get k (flag_info (flags s))));
    try reflexivity.
  intros s. cbn [flags assignFlag reg_set flag_info].
  apply ObjFacts.get_set_other. congruence.
Qed.

(** FILE_IS_A_SAVEGAME and the version when the [finally] block starts *)
Lemma run_savegame_flag req h filePath folder size date md5Pre :
  let st0 := constructor filePath folder size date md5Pre in
  let sg := h_open h && h_exists h "careerSavegame.xml" in
  Obj.get "FILE_IS_A_SAVEGAME" (flag_info (flags (beforeL10n req h st0)))
  = Some sg /\
  (sg = true -> version (modDesc (beforeL10n req h st0)) = JStr "--").
Proof.
  intros st0 sg.
  destruct (validFileName_frame st0) as (Fi & _). cbv zeta in Fi.
  assert (V : Obj.get "FILE_IS_A_SAVEGAME"
                (flag_info (flags (snd (doStep_validFileName st0)))) = Some false)
    by (rewrite Fi; reflexivity).
  destruct (reachesWalk h st0) eqn:R.
  - rewrite (beforeL10n_walked req h st0 R).
    destruct (icon_frame req h
                (doStep_parseModDesc h
                   (doStep_fileCounts req h (snd (doStep_validFileName st0)))))
      as (_ & _ & _ & _ & _ & Ei & _). cbv zeta in Ei. rewrite Ei.
    destruct (parseModDesc_frame h
                (doStep_fileCounts req h (snd (doStep_validFileName st0))))
      as (_ & _ & _ & Ep & _). cbv zeta in Ep. rewrite Ep.
    rewrite fileCounts_info_other by discriminate.
    apply reachesWalk_true in R. destruct R as (_ & Ho & Hm & _).
    subst sg. rewrite Ho, Hm. split; [exact V | discriminate].
  - revert R. subst sg. unfold reachesWalk, beforeL10n, getInfo_try.
    destruct (fst (doStep_validFileName st0)), (h_open h),
      (h_exists h "careerSavegame.xml"), (h_exists h "modDesc.xml");
      cbn [negb andb]; try discriminate; intros _;
      cbn [flags modDesc assignFlag util_raiseFlag_broken util_raiseFlag_info
           with_fileDetail with_modDesc with_md5Sum reg_set flag_info version
           md_version];
      rewrite ?ObjFacts.get_set_same; rewrite ?V;
      split; try reflexivity; discriminate.
Qed.

(** X7: a run lists FILE_IS_A_SAVEGAME among the issues, and has the badge
    savegame, exactly when the archive opens and holds careerSavegame.xml,
    whether or not the name is valid; such a report has neither the badge
    broken nor the badge problem, and its version is "--". *)
Theorem X7_savegame_report :
  forall req h filePath isFolder size date md5Pre,
    let st0 := constructor filePath isFolder size date md5Pre in
    let r := getInfo req h st0 in
    let sg := h_open h && h_exists h "careerSavegame.xml" in
    (In "FILE_IS_A_SAVEGAME"%string (issues r) <-> sg = true) /\
    (In "savegame"%string (badgeArray r) <-> sg = true) /\
    (sg = true ->
     ~ In "broken"%string (badgeArray r) /\
     ~ In "problem"%string (badgeArray r) /\
     version (rec_modDesc r) = JStr "--").
Proof.
  intros req h filePath folder size date md5Pre st0 r sg.
  destruct (run_savegame_flag req h filePath folder size date md5Pre)
    as (G & Gv). cbv zeta in G, Gv. fold st0 in G, Gv. fold sg in G, Gv.
  assert (S : isSaveGame (fileDetail (getInfo_state req h st0)) = sg)
    by (apply isSaveGame_iff_marker; reflexivity).
  destruct (badges_spec (getInfo_state req h st0))
    as (Bb & _ & _ & _ & _ & _ & Bp & Bs). cbv zeta in Bb, Bp, Bs.
  rewrite S in Bb, Bp, Bs.
  split; [|split].
  - subst r st0.
    apply (@issue_of_info_flag req h "FILE_IS_A_SAVEGAME" sg filePath folder
             size date md5Pre).
    rewrite final_flag_info by discriminate. exact G.
  - exact Bs.
  - intros E. rewrite E in Bb, Bp. repeat split.
    + intros H. apply Bb in H. discriminate.
    + intros H. apply Bp in H. discriminate.
    + subst r. rewrite storable_modDesc. apply Gv, E.
Qed.

(** X8: the md5Sum of the report is the value given to the constructor,
    except on the one path that discards it: a valid name whose archive
    opens and holds neither save-game marker nor modDesc.xml, where it is
    null. *)
Theorem X8_md5Sum_of_report :
  forall req h filePath isFolder size date md5Pre,
    let st0 := constructor filePath isFolder size date md5Pre in
    rec_md5Sum (getInfo req h st0)
    = (if fst (doStep_validFileName st0) && h_open h
          && negb (h_exists h "careerSavegame.xml")
          && negb (h_exists h "modDesc.xml")
       then None else md5Pre).
Proof.
  intros req h filePath folder size date md5Pre st0.
  unfold getInfo. rewrite getInfo_state_eq.
  cbn [storable rec_md5Sum md5Sum with_modDescParsed doStep_l10n with_l10n
       assignFlag].
  destruct (validFileName_frame st0) as (_ & _ & _ & F5 & _). cbv zeta in F5.
  destruct (reachesWalk h st0) eqn:R.
  - rewrite (beforeL10n_walked req h st0 R).
    destruct (icon_frame req h
                (doStep_parseModDesc h
                   (doStep_fileCounts req h (snd (doStep_validFileName st0)))))
      as (_ & Ei & _). cbv zeta in Ei. rewrite Ei.
    destruct (parseModDesc_frame h
                (doStep_fileCounts req h (snd (doStep_validFileName st0))))
      as (_ & Ep & _). cbv zeta in Ep. rewrite Ep.
    rewrite fileCounts_md5Sum, F5.
    apply reachesWalk_true in R. destruct R as (Hv & Ho & Hm & Hd).
    rewrite Hv, Ho, Hm, Hd. reflexivity.
  - revert R. unfold reachesWalk, beforeL10n, getInfo_try.
    destruct (fst (doStep_validFileName st0)), (h_open h),
      (h_exists h "careerSavegame.xml"), (h_exists h "modDesc.xml");
      cbn [negb andb]; try discriminate; intros _;
      cbn [md5Sum assignFlag util_raiseFlag_broken util_raiseFlag_info
           with_fileDetail with_modDesc with_md5Sum];
      first [reflexivity | exact F5].
Qed.

Lemma coalesce_text_not_nullish v s : JS.nullish (JS.coalesce v (JStr s)) = false.
Proof. unfold JS.coalesce. destruct (JS.nullish v) eqn:E; [reflexivity | exact E]. Qed.

Lemma localString_not_nullish req key fallback st :
  JS.nullish (modDesc_localString req key fallback st) = false.
Proof.
  unfold modDesc_localString.
  destruct (JS.coalesce _ (JStr fallback)); try reflexivity;
    apply coalesce_text_not_nullish.
Qed.

(** X9: the report always carries a title and a description that are
    neither null nor undefined, and PERF_L10N_NOT_SET is among the issues
    exactly when that title is the text "--" or that description is the
    empty text. *)
Theorem X9_l10n_issue :
  forall req h filePath isFolder size date md5Pre,
    let r := getInfo req h (constructor filePath isFolder size date md5Pre) in
    exists title desc,
      rec_l10n r = Some (title, desc) /\
      JS.nullish title = false /\ JS.nullish desc = false /\
      (In "PERF_L10N_NOT_SET"%string (issues r)
       <-> JS.isStr title "--" || JS.isStr desc EmptyString = true).
Proof.
  intros req h filePath folder size date md5Pre r.
  set (st0 := constructor filePath folder size date md5Pre) in *.
  set (b := beforeL10n req h st0).
  exists (modDesc_localString req "title" "--" b),
         (modDesc_localString req "description" EmptyString b).
  split; [|split; [|split]].
  - subst r. unfold getInfo. rewrite getInfo_state_eq. reflexivity.
  - apply localString_not_nullish.
  - apply localString_not_nullish.
  - subst r st0.
    apply (@issue_of_info_flag req h "PERF_L10N_NOT_SET" _ filePath folder
             size date md5Pre).
    rewrite getInfo_state_eq.
    cbn [flags with_modDescParsed doStep_l10n with_l10n assignFlag reg_set
         flag_info].
    apply ObjFacts.get_set_same.
Qed.

(** ** The name validator *)

(** the broken map of a run whose name is refused: what the validator
    left, with FILE_ERROR_NAME_INVALID raised *)
Lemma invalid_name_broken req h st0 :
  fst (doStep_validFileName st0) = false ->
  flag_broken (flags (beforeL10n req h st0))
  = Obj.set "FILE_ERROR_NAME_INVALID" true
      (flag_broken (flags (snd (doStep_validFileName st0)))) /\
  copyName (fileDetail (beforeL10n req h st0))
  = copyName (fileDetail (snd (doStep_validFileName st0))).
Proof.
  intros Hv. unfold beforeL10n, getInfo_try. rewrite Hv.
  destruct (h_open h); [destruct (h_exists h "careerSavegame.xml")|];
    split; reflexivity.
Qed.

(** X10: for a file (not a folder) whose path does not end in .zip, the
    name validator refuses the artifact without looking at its name: the
    issues contain FILE_ERROR_UNSUPPORTED_ARCHIVE exactly when the path
    ends in .rar or .7z and FILE_ERROR_GARBAGE_FILE exactly when it does
    not, never FILE_ERROR_LIKELY_ZIP_PACK, FILE_ERROR_NAME_STARTS_DIGIT or
    FILE_ERROR_LIKELY_COPY, and no copy name is recorded. *)
Theorem X10_wrong_extension :
  forall req h filePath size date md5Pre,
    let st0 := constructor filePath false size date md5Pre in
    let r := getInfo req h st0 in
    let archive := Str.endsWith filePath ".rar" || Str.endsWith filePath ".7z" in
    Str.endsWith filePath ".zip" = false ->
    fst (doStep_validFileName st0) = false /\
    (In "FILE_ERROR_UNSUPPORTED_ARCHIVE"%string (issues r) <-> archive = true) /\
    (In "FILE_ERROR_GARBAGE_FILE"%string (issues r) <-> archive = false) /\
    ~ In "FILE_ERROR_LIKELY_ZIP_PACK"%string (issues r) /\
    ~ In "FILE_ERROR_NAME_STARTS_DIGIT"%string (issues r) /\
    ~ In "FILE_ERROR_LIKELY_COPY"%string (issues r) /\
    copyName (rec_fileDetail r) = None.
Proof.
  intros req h filePath size date md5Pre st0 r archive Hzip.
  assert (E : doStep_validFileName st0
              = (false,
                 util_raiseFlag_broken
                   (if archive then "FILE_ERROR_UNSUPPORTED_ARCHIVE"
                    else "FILE_ERROR_GARBAGE_FILE")%string st0)).
  { unfold doStep_validFileName.
    change (fullPath (fileDetail st0)) with filePath.
    change (isFolder (fileDetail st0)) with false.
    rewrite Hzip. cbn [negb andb]. fold archive.
    destruct archive; reflexivity. }
  assert (Hv : fst (doStep_validFileName st0) = false) by (rewrite E; reflexivity).
  destruct (invalid_name_broken req h st0 Hv) as [B Cn].
  rewrite E in B, Cn. cbn [snd] in B, Cn.
  split; [exact Hv|].
  subst r st0.
  rewrite (@issue_of_broken_flag req h "FILE_ERROR_UNSUPPORTED_ARCHIVE" filePath
             false size date md5Pre eq_refl eq_refl eq_refl eq_refl).
  rewrite (@issue_of_broken_flag req h "FILE_ERROR_GARBAGE_FILE" filePath
             false size date md5Pre eq_refl eq_refl eq_refl eq_refl).
  rewrite (@issue_of_broken_flag req h "FILE_ERROR_LIKELY_ZIP_PACK" filePath
             false size date md5Pre eq_refl eq_refl eq_refl eq_refl).
  rewrite (@issue_of_broken_flag req h "FILE_ERROR_NAME_STARTS_DIGIT" filePath
             false size date md5Pre eq_refl eq_refl eq_refl eq_refl).
  rewrite (@issue_of_broken_flag req h "FILE_ERROR_LIKELY_COPY" filePath
             false size date md5Pre eq_refl eq_refl eq_refl eq_refl).
  rewrite storable_fileDetail, Cn, B.
  rewrite !ObjFacts.get_set_other by discriminate.
  destruct archive;
    cbn [flags assignFlag util_raiseFlag_broken reg_set flag_broken];
    rewrite ?ObjFacts.get_set_same;
    rewrite ?ObjFacts.get_set_other by discriminate;
    repeat split; try reflexivity; try discriminate;
    try (intros H; discriminate H).
Qed.

Lemma X10_wrong_extension_witness :
  In "FILE_ERROR_UNSUPPORTED_ARCHIVE"%string
     (issues (getInfo Examples.req RarExample.h
                (constructor "/mods/FS22_MyMod.rar" false 10 20 None))) /\
  ~ In "FILE_ERROR_GARBAGE_FILE"%string
     (issues (getInfo Examples.req RarExample.h
                (constructor "/mods/FS22_MyMod.rar" false 10 20 None))).
Proof.
  destruct (X10_wrong_extension Examples.req RarExample.h "/mods/FS22_MyMod.rar"
              10 20 None eq_refl) as (_ & U & G & _).
  split.
  - apply U. reflexivity.
  - intros H. apply G in H. discriminate H.
Defined.

Lemma span_spec p s w rest :
  Str.span p s = (w, rest) -> s = (w ++ rest)%string /\ Str.allChars p w = true.
Proof.
  revert w rest. induction s as [|c s IH]; intros w rest; cbn [Str.span].
  - intros [= <- <-]. split; reflexivity.
  - destruct (p c) eqn:Pc.
    + destruct (Str.span p s) as [a b] eqn:E. intros [= <- <-].
      destruct (IH a b eq_refl) as [Es Ea]. split.
      * cbn [String.append]. rewrite <- Es. reflexivity.
      * cbn [Str.allChars]. rewrite Pc, Ea. reflexivity.
    + intros [= <- <-]. split; reflexivity.
Qed.

Lemma prefix_append w rest : String.prefix w (w ++ rest) = true.
Proof.
  induction w as [|c w IH]; cbn [String.append].
  - destruct rest; reflexivity.
  - cbn [String.prefix].
    destruct (ascii_dec c c) as [_|N]; [exact IH | contradiction].
Qed.

(** the base name the copy pattern recovers is a prefix of the name and
    passes the identifier pattern itself *)
Lemma re_copyName_spec s b :
  re_copyName s = Some b ->
  re_identifier b = true /\ String.prefix b s = true /\ re_identifier s = false.
Proof.
  unfold re_copyName. destruct s as [|c r]; [discriminate|].
  destruct (Str.isAlpha c) eqn:Ac; [|discriminate].
  destruct (Str.span Str.isWord r) as [w rest] eqn:Sp.
  destruct (span_spec _ _ Sp) as [Er Ew].
  destruct (String.eqb w EmptyString) eqn:Enil; [discriminate|].
  destruct (re_tail " - " rest || re_tail " (" rest) eqn:T; [|discriminate].
  intros [= <-].
  destruct w as [|d w']; [discriminate Enil|].
  cbn [Str.allChars] in Ew. apply Bool.andb_true_iff in Ew. destruct Ew as [Wd Ww].
  split; [|split].
  - cbn [re_identifier]. rewrite Ac, Wd, Ww. reflexivity.
  - subst r. cbn [String.prefix]. destruct (ascii_dec c c) as [_|N]; [|contradiction].
    exact (prefix_append (String d w') rest).
  - subst r. cbn [re_identifier String.append].
    rewrite Ac, Wd. cbn [orb andb].
    (* what follows the word characters starts with a space *)
    assert (Sp' : exists t, rest = String " "%char t).
    { unfold re_tail in T. apply Bool.orb_true_iff in T.
      destruct T as [T|T]; apply Bool.andb_true_iff in T; destruct T as [T _];
        destruct rest as [|x t]; try discriminate T;
        cbn [String.prefix] in T;
        destruct (ascii_dec " "%char x) as [<-|]; try discriminate T;
        eexists; reflexivity. }
    destruct Sp' as [t ->].
    clear - w'. induction w' as [|e w' IH]; cbn [String.append Str.allChars].
    + reflexivity.
    + rewrite IH. apply Bool.andb_false_r.
Qed.

(** X11: when the name validator records a copy name for a fresh
    instance, it has refused the name and raised FILE_ERROR_LIKELY_COPY,
    and the recorded name is a prefix of the short name that passes the
    identifier pattern the short name fails. *)
Theorem X11_copy_name :
  forall filePath isFolder size date md5Pre base,
    let st0 := constructor filePath isFolder size date md5Pre in
    let st1 := snd (doStep_validFileName st0) in
    copyName (fileDetail st1) = Some base ->
    fst (doStep_validFileName st0) = false /\
    Obj.get "FILE_ERROR_LIKELY_COPY" (flag_broken (flags st1)) = Some true /\
    re_identifier base = true /\
    String.prefix base (Path.parse_name filePath) = true /\
    re_identifier (Path.parse_name filePath) = false.
Proof.
  intros filePath folder size date md5Pre base st0 st1. subst st1.
  unfold doStep_validFileName.
  change (shortName (fileDetail st0)) with (Path.parse_name filePath).
  destruct (negb (isFolder (fileDetail st0)) && _).
  { destruct (_ || _); discriminate. }
  destruct (re_startsDigit _);
    [destruct (re_unzip _); discriminate|].
  destruct (negb (re_identifier _));
    [|destruct (re_unzip _); discriminate].
  destruct (re_copyName (Path.parse_name filePath)) as [b|] eqn:Ec;
    [|destruct (re_unzip _); discriminate].
  destruct (re_copyName_spec _ Ec) as (I1 & I2 & I3).
  destruct (re_unzip _);
    cbn [fst snd fileDetail flags with_fileDetail util_raiseFlag_broken
         assignFlag reg_set flag_broken copyName fd_copyName];
    intros [= <-]; repeat split; try assumption;
    apply ObjFacts.get_set_same.
Qed.

Lemma X11_copy_name_witness :
  re_identifier "MyMod" = true /\
  String.prefix "MyMod" (Path.parse_name "/mods/MyMod (1).zip") = true.
Proof.
  destruct (X11_copy_name "/mods/MyMod (1).zip" false 10 20 None
              (base := "MyMod") eq_refl) as (_ & _ & I & P & _).
  split; assumption.
Defined.
